(** * ecom-admin-api: the inventory ledger of the admin API

    A shallow embedding of the three routes that write [inventory] and
    [inventory_history]:
      - [POST /api/products]            (src/routes/products.js)
      - [POST /api/sales]               (src/routes/sales.js)
      - [PUT  /api/inventory/:product_id] (src/routes/inventory.js)
    over the relations of src/db/schema.sql.  Every [await db.query(...)]
    is one statement sent through [pool.query] (src/db/db.js): it runs and
    commits on its own, there is no [BEGIN]/[COMMIT] anywhere in the
    repository. *)

From Stdlib Require Import ZArith List String Ascii Bool Lia.
From Stdlib Require Import Permutation Sorted.
Import ListNotations.
Open Scope Z_scope.

(** ** JavaScript values of a parsed JSON body

    [JNum z] is a Number whose value is the integer [z] (a safe integer,
    rendered by ToString as its decimal numeral).  Numbers with a
    fractional part are not represented; sent as text ("3.7") they are
    [JStr].  Strings are ASCII. *)

Inductive jsval : Type :=
| JUndefined
| JNull
| JBool (b : bool)
| JNum (z : Z)
| JStr (s : string).

(** [!v] is [negb (truthy v)]. *)
Definition truthy (v : jsval) : bool :=
  match v with
  | JUndefined | JNull => false
  | JBool b => b
  | JNum z => negb (z =? 0)
  | JStr s => negb (String.eqb s EmptyString)
  end.

(** [v == null] *)
Definition eq_null (v : jsval) : bool :=
  match v with
  | JUndefined | JNull => true
  | _ => false
  end.

(** [typeof v === "string"] *)
Definition typeof_string (v : jsval) : bool :=
  match v with
  | JStr _ => true
  | _ => false
  end.

(** White space skipped by [parseInt], [String.prototype.trim] and by the
    store's integer input: TAB, LF, VT, FF, CR, SP. *)
Definition is_space (c : ascii) : bool :=
  let n := N_of_ascii c in
  ((9 <=? n) && (n <=? 13) || (n =? 32))%N.

Definition digit_of (c : ascii) : option Z :=
  let n := N_of_ascii c in
  if ((48 <=? n) && (n <=? 57))%N then Some (Z.of_N n - 48) else None.

Fixpoint skip_space (s : string) : string :=
  match s with
  | String c s' => if is_space c then skip_space s' else s
  | EmptyString => s
  end.

Definition take_sign (s : string) : Z * string :=
  match s with
  | String "-"%char s' => (-1, s')
  | String "+"%char s' => (1, s')
  | _ => (1, s)
  end.

(** The longest prefix of decimal digits and its value; [None] when the
    prefix is empty. *)
Fixpoint take_digits (acc : option Z) (s : string) : option Z * string :=
  match s with
  | String c s' =>
      match digit_of c with
      | Some d =>
          take_digits (Some (10 * match acc with Some a => a | None => 0 end + d)) s'
      | None => (acc, s)
      end
  | EmptyString => (acc, s)
  end.

(** [parseInt(s, 10)] on a string: leading white space, an optional sign,
    then the longest run of digits; what follows is ignored.  [None] is
    NaN. *)
Definition parseInt_text (s : string) : option Z :=
  let (sg, s1) := take_sign (skip_space s) in
  match fst (take_digits None s1) with
  | Some n => Some (sg * n)
  | None => None
  end.

(** [parseInt(v, 10)]: the argument goes through ToString first, so
    [true], [null] and [undefined] give NaN. *)
Definition parseInt (v : jsval) : option Z :=
  match v with
  | JNum z => Some z
  | JStr s => parseInt_text s
  | _ => None
  end.

Definition string_rev (s : string) : string :=
  string_of_list_ascii (rev (list_ascii_of_string s)).

(** [s.trim()] *)
Definition trim (s : string) : string :=
  string_rev (skip_space (string_rev (skip_space s))).

(** ** The store: src/db/schema.sql

    Rows are kept in insertion order.  The columns the store fills in on
    its own and no route of the ledger reads back ([created_at],
    [updated_at], [changed_at], the serial ids of [inventory] and
    [inventory_history]) are left out; insertion order is the order of
    those serial ids and of [changed_at].  [NUMERIC(_,2)] values are held
    in hundredths. *)

Record category : Type := mk_category {
  c_id : Z;
  c_name : string
}.

Record product : Type := mk_product {
  p_id : Z;
  p_name : string;
  p_description : string;
  p_price : Z;
  p_category_id : option Z
}.

Record inventory_row : Type := mk_inventory {
  i_product_id : Z;
  i_quantity : Z
}.

Record history_row : Type := mk_history {
  h_product_id : Z;
  change_qty : Z;
  previous_qty : Z;
  new_qty : Z
}.

Record sale : Type := mk_sale {
  s_id : Z;
  s_product_id : Z;
  s_quantity : Z;
  s_total_price : Z;
  s_sale_date : Z
}.

Record Store : Type := mk_store {
  categories : list category;
  products : list product;
  inventory : list inventory_row;
  inventory_history : list history_row;
  sales : list sale;
  products_id_seq : Z;
  sales_id_seq : Z
}.

(** SQLSTATE classes the statements below can raise. *)
Inductive dberr : Type :=
| invalid_text_representation
| numeric_value_out_of_range
| string_data_right_truncation
| not_null_violation
| foreign_key_violation
| check_violation
| datetime_field_overflow
| sequence_generator_limit_exceeded
| connection_failure.

Definition int4_min : Z := -2147483648.
Definition int4_max : Z := 2147483647.

Definition int4_range (z : Z) : dberr + Z :=
  if (int4_min <=? z) && (z <=? int4_max) then inr z
  else inl numeric_value_out_of_range.

(** Integer input of the store on a text parameter: white space, sign,
    digits, white space, and nothing else. *)
Definition int4_text (s : string) : dberr + Z :=
  let (sg, s1) := take_sign (skip_space s) in
  match take_digits None s1 with
  | (Some n, rest) =>
      match skip_space rest with
      | EmptyString => int4_range (sg * n)
      | _ => inl invalid_text_representation
      end
  | (None, _) => inl invalid_text_representation
  end.

(** A query parameter bound to an INTEGER column or compared with one.
    [null] and [undefined] are sent as NULL ([None]); a boolean is sent as
    the text "true"/"false". *)
Definition bind_int4 (v : jsval) : dberr + option Z :=
  match v with
  | JUndefined | JNull => inr None
  | JBool _ => inl invalid_text_representation
  | JNum z => match int4_range z with inl e => inl e | inr n => inr (Some n) end
  | JStr s => match int4_text s with inl e => inl e | inr n => inr (Some n) end
  end.

(** ** What stays abstract: floating point and dates

    The price of a new product goes through [parseFloat] and is sent to a
    NUMERIC(12,2) column; [sale_date] goes through [new Date(...)].  IEEE
    arithmetic and date parsing are taken as an interface of the
    JavaScript runtime and of the store's input functions. *)

Class Runtime : Type := {
  float : Type;
  (** [parseFloat(v)] *)
  parseFloat : jsval -> float;
  (** [isNaN(x)] *)
  float_isNaN : float -> bool;
  (** [x < 0] *)
  float_ltz : float -> bool;
  (** the value as a NUMERIC with two decimals, in hundredths; [None] when
      the store's numeric input has no such value *)
  numeric_in : float -> option Z;
  (** [new Date(v).getTime()], [None] when it is NaN *)
  Date_of : jsval -> option Z;
  (** whether TIMESTAMP WITH TIME ZONE holds the instant *)
  timestamptz_in : Z -> bool
}.

(** ** Responses *)

Inductive bval : Type :=
| VNull
| VInt (z : Z)
| VText (s : string)
| VNumeric (hundredths : Z)
| VTime (t : Z).

Definition json : Type := list (string * bval).

(** [body = None] is [res.json(undefined)]. *)
Record response : Type := mk_response {
  status : Z;
  body : option json
}.

Definition error_json (msg : string) : option json :=
  Some [("error"%string, VText msg)].

(** ** Handlers as sequences of awaited statements

    A handler is a tree whose nodes are the [await db.query(...)] points.
    [Await q k] sends the statement [q]; the continuation receives the
    settled promise: its rows, or the error it rejected with. *)

Inductive exn : Type :=
| DbError (e : dberr)
| TypeError.

Definition query (R : Type) : Type := Store -> (dberr + R) * Store.

Inductive prog (A : Type) : Type :=
| Ret (a : A)
| Raise (e : exn)
| Await {R : Type} (q : query R) (k : dberr + R -> prog A).

Arguments Ret {A} a.
Arguments Raise {A} e.
Arguments Await {A R} q k.

Fixpoint bind {A B : Type} (p : prog A) (f : A -> prog B) : prog B :=
  match p with
  | Ret a => f a
  | Raise e => Raise e
  | Await q k => Await q (fun x => bind (k x) f)
  end.

(** [await db.query(...)]: a rejection is thrown at the await. *)
Definition await {R : Type} (q : query R) : prog R :=
  Await q (fun x => match x with
                    | inl e => Raise (DbError e)
                    | inr r => Ret r
                    end).

(** [try { p } catch (err) { h(err) }] *)
Fixpoint try_catch {A : Type} (p : prog A) (h : exn -> prog A) : prog A :=
  match p with
  | Ret a => Ret a
  | Raise e => h e
  | Await q k => Await q (fun x => try_catch (k x) h)
  end.

Declare Scope prog_scope.
Delimit Scope prog_scope with prog.
Notation "x <- p ;; k" := (bind p (fun x => k))
  (at level 61, p at next level, right associativity) : prog_scope.
Notation "p ;; k" := (bind p (fun _ => k))
  (at level 61, right associativity) : prog_scope.

(** The outcome of an async handler: it returned after sending a
    response, or its promise rejected with an exception no [try] caught
    (Express 4 then sends nothing). *)
Inductive outcome (A : Type) : Type :=
| Returned (a : A)
| Uncaught (e : exn).

Arguments Returned {A} a.
Arguments Uncaught {A} e.

(** One request served alone. *)
Fixpoint run {A : Type} (p : prog A) (st : Store) : outcome A * Store :=
  match p with
  | Ret a => (Returned a, st)
  | Raise e => (Uncaught e, st)
  | Await q k => let (x, st') := q st in run (k x) st'
  end.

(** One request served alone while the connection fails at its [n]-th
    statement (counted from 0): that statement does nothing and rejects. *)
Fixpoint run_failing {A : Type} (n : nat) (p : prog A) (st : Store)
  : outcome A * Store :=
  match p with
  | Ret a => (Returned a, st)
  | Raise e => (Uncaught e, st)
  | Await q k =>
      match n with
      | O => run (k (inl connection_failure)) st
      | S n' => let (x, st') := q st in run_failing n' (k x) st'
      end
  end.

(** Requests served concurrently by the event loop: a handler runs up to
    its next [await], the statement it sent is executed by the store, and
    any handler may be resumed next.  The row lock of [FOR UPDATE] ends
    with its statement, so it never spans two steps. *)
Definition step {A : Type} (p : prog A) (st : Store) : prog A * Store :=
  match p with
  | Await q k => let (x, st') := q st in (k x, st')
  | _ => (p, st)
  end.

Fixpoint set_nth {A : Type} (i : nat) (a : A) (l : list A) : list A :=
  match l, i with
  | [], _ => []
  | _ :: l', O => a :: l'
  | b :: l', S i' => b :: set_nth i' a l'
  end.

Fixpoint interleave {A : Type} (schedule : list nat) (ps : list (prog A))
  (st : Store) : list (prog A) * Store :=
  match schedule with
  | [] => (ps, st)
  | i :: schedule' =>
      match nth_error ps i with
      | Some p =>
          let (p', st') := step p st in
          interleave schedule' (set_nth i p' ps) st'
      | None => interleave schedule' ps st
      end
  end.

(** The response a finished handler sent, if any. *)
Definition sent {A : Type} (p : prog A) : option A :=
  match p with
  | Ret a => Some a
  | _ => None
  end.

(** ** The statements the three routes send *)

Definition with_products (st : Store) (ps : list product) (seq : Z) : Store :=
  mk_store (categories st) ps (inventory st) (inventory_history st)
           (sales st) seq (sales_id_seq st).

Definition with_inventory (st : Store) (inv : list inventory_row) : Store :=
  mk_store (categories st) (products st) inv (inventory_history st)
           (sales st) (products_id_seq st) (sales_id_seq st).

Definition with_history (st : Store) (h : list history_row) : Store :=
  mk_store (categories st) (products st) (inventory st) h
           (sales st) (products_id_seq st) (sales_id_seq st).

Definition with_sales (st : Store) (ss : list sale) (seq : Z) : Store :=
  mk_store (categories st) (products st) (inventory st) (inventory_history st)
           ss (products_id_seq st) seq.

Definition has_category (st : Store) (id : Z) : bool :=
  existsb (fun c => c_id c =? id) (categories st).

Definition has_product (st : Store) (id : Z) : bool :=
  existsb (fun p => p_id p =? id) (products st).

(** Rows of [inventory] with the given [product_id]. *)
Definition inventory_of (id : Z) (st : Store) : list inventory_row :=
  filter (fun i => i_product_id i =? id) (inventory st).

(** Rows of [inventory_history] with the given [product_id], oldest
    first. *)
Definition history_of (id : Z) (st : Store) : list history_row :=
  filter (fun h => h_product_id h =? id) (inventory_history st).

(** [INSERT INTO products(name, description, price, category_id)
     VALUES($1, $2, $3, $4) RETURNING id, name, description, price, category_id;]
    The id is the next value of the serial sequence (1 to 2147483647); a
    value drawn for a row that a constraint then refuses is not given
    back. *)
Definition insert_product `{Runtime} (name description : string)
  (price : float) (category_id : Z) : query product :=
  fun st =>
    match numeric_in price, int4_range category_id with
    | None, _ => (inl numeric_value_out_of_range, st)
    | _, inl e => (inl e, st)
    | Some cents, inr cid =>
        let id := products_id_seq st in
        let st1 := with_products st (products st) (id + 1) in
        if (id <? 1) || (int4_max <? id) then
          (inl sequence_generator_limit_exceeded, st)
        else if 150 <? Z.of_nat (String.length name) then
          (inl string_data_right_truncation, st1)
        else if 10 ^ 12 <=? Z.abs cents then
          (inl numeric_value_out_of_range, st1)
        else if cents <? 0 then (inl check_violation, st1)
        else if negb (has_category st cid) then (inl foreign_key_violation, st1)
        else
          let row := mk_product id name description cents (Some cid) in
          (inr row, with_products st (products st ++ [row]) (id + 1))
    end.

(** [INSERT INTO inventory(product_id, quantity, updated_at)
     VALUES($1, $2, NOW());] *)
Definition insert_inventory (product_id quantity : Z) : query unit :=
  fun st =>
    match int4_range product_id, int4_range quantity with
    | inl e, _ => (inl e, st)
    | _, inl e => (inl e, st)
    | inr pid, inr q =>
        if q <? 0 then (inl check_violation, st)
        else if negb (has_product st pid) then (inl foreign_key_violation, st)
        else (inr tt, with_inventory st (inventory st ++ [mk_inventory pid q]))
    end.

(** [INSERT INTO inventory_history(product_id, change_qty, previous_qty, new_qty)
     VALUES($1, $2, $3, $4);] *)
Definition insert_history (product_id : jsval) (change previous new : Z)
  : query unit :=
  fun st =>
    match bind_int4 product_id, int4_range change, int4_range previous,
          int4_range new with
    | inl e, _, _, _ => (inl e, st)
    | _, inl e, _, _ => (inl e, st)
    | _, _, inl e, _ => (inl e, st)
    | _, _, _, inl e => (inl e, st)
    | inr None, _, _, _ => (inl not_null_violation, st)
    | inr (Some pid), inr c, inr p, inr n =>
        if negb (has_product st pid) then (inl foreign_key_violation, st)
        else (inr tt,
              with_history st (inventory_history st ++ [mk_history pid c p n]))
    end.

(** [SELECT quantity FROM inventory WHERE product_id = $1 FOR UPDATE;] *)
Definition select_inventory (product_id : jsval) : query (list Z) :=
  fun st =>
    match bind_int4 product_id with
    | inl e => (inl e, st)
    | inr None => (inr [], st)
    | inr (Some pid) => (inr (map i_quantity (inventory_of pid st)), st)
    end.

(** The rows after [SET quantity = q ... WHERE product_id = pid]. *)
Definition set_quantity (pid q : Z) (inv : list inventory_row)
  : list inventory_row :=
  map (fun i => if i_product_id i =? pid then mk_inventory pid q else i) inv.

(** [UPDATE inventory SET quantity = $1, updated_at = NOW()
     WHERE product_id = $2;]  The CHECK is evaluated on the rows written. *)
Definition update_inventory (quantity : Z) (product_id : jsval) : query unit :=
  fun st =>
    match int4_range quantity, bind_int4 product_id with
    | inl e, _ => (inl e, st)
    | _, inl e => (inl e, st)
    | inr q, inr None => (inr tt, st)
    | inr q, inr (Some pid) =>
        if existsb (fun i => i_product_id i =? pid) (inventory st) && (q <? 0)
        then (inl check_violation, st)
        else (inr tt, with_inventory st (set_quantity pid q (inventory st)))
    end.

(** [SELECT id FROM products WHERE id = $1;] *)
Definition select_product_id (id : Z) : query (list Z) :=
  fun st =>
    match int4_range id with
    | inl e => (inl e, st)
    | inr n => (inr (map p_id (filter (fun p => p_id p =? n) (products st))), st)
    end.

(** [SELECT price FROM products WHERE id = $1;] *)
Definition select_price (id : jsval) : query (list Z) :=
  fun st =>
    match bind_int4 id with
    | inl e => (inl e, st)
    | inr None => (inr [], st)
    | inr (Some n) =>
        (inr (map p_price (filter (fun p => p_id p =? n) (products st))), st)
    end.

(** [INSERT INTO sales(product_id, quantity, total_price, sale_date)
     VALUES($1, $2, $3, $4) RETURNING id;] *)
Definition insert_sale `{Runtime} (product_id quantity : jsval)
  (total_price sale_date : Z) : query Z :=
  fun st =>
    match bind_int4 product_id, bind_int4 quantity with
    | inl e, _ => (inl e, st)
    | _, inl e => (inl e, st)
    | inr opid, inr oq =>
        if negb (timestamptz_in sale_date) then (inl datetime_field_overflow, st)
        else
          let id := sales_id_seq st in
          let st1 := with_sales st (sales st) (id + 1) in
          if (id <? 1) || (int4_max <? id) then
            (inl sequence_generator_limit_exceeded, st)
          else if 10 ^ 14 <=? Z.abs total_price then
            (inl numeric_value_out_of_range, st1)
          else
            match opid, oq with
            | Some pid, Some q =>
                if (q <=? 0) || (total_price <? 0) then (inl check_violation, st1)
                else if negb (has_product st pid) then
                  (inl foreign_key_violation, st1)
                else
                  (inr id,
                   with_sales st
                     (sales st ++ [mk_sale id pid q total_price sale_date])
                     (id + 1))
            | _, _ => (inl not_null_violation, st1)
            end
    end.

Definition opt_int (o : option Z) : bval :=
  match o with
  | Some z => VInt z
  | None => VNull
  end.

(** [c.name] under [LEFT JOIN categories c ON p.category_id = c.id] *)
Definition category_name (st : Store) (p : product) : bval :=
  match p_category_id p with
  | Some cid =>
      match find (fun c => c_id c =? cid) (categories st) with
      | Some c => VText (c_name c)
      | None => VNull
      end
  | None => VNull
  end.

Definition product_json (st : Store) (p : product) (quantity : bval) : json :=
  [ ("id", VInt (p_id p)); ("name", VText (p_name p));
    ("description", VText (p_description p)); ("price", VNumeric (p_price p));
    ("category_id", opt_int (p_category_id p));
    ("category_name", category_name st p); ("quantity", quantity) ]%string.

(** [SELECT p.id, ..., c.name AS category_name, i.quantity
     FROM products p LEFT JOIN categories c ON p.category_id = c.id
     LEFT JOIN inventory i ON p.id = i.product_id WHERE p.id = $1;] *)
Definition select_product_joined (id : Z) : query (list json) :=
  fun st =>
    match int4_range id with
    | inl e => (inl e, st)
    | inr n =>
        (inr (flat_map
                (fun p =>
                   match inventory_of (p_id p) st with
                   | [] => [product_json st p VNull]
                   | rows => map (fun i => product_json st p (VInt (i_quantity i))) rows
                   end)
                (filter (fun p => p_id p =? n) (products st))), st)
    end.

Definition sale_json (st : Store) (s : sale) (p : product) : json :=
  [ ("id", VInt (s_id s)); ("product_id", VInt (s_product_id s));
    ("product_name", VText (p_name p));
    ("category_id", opt_int (p_category_id p));
    ("category_name", category_name st p); ("quantity", VInt (s_quantity s));
    ("total_price", VNumeric (s_total_price s));
    ("sale_date", VTime (s_sale_date s)) ]%string.

(** [SELECT s.id, ..., s.sale_date FROM sales s
     JOIN products p ON s.product_id = p.id
     LEFT JOIN categories c ON p.category_id = c.id WHERE s.id = $1;] *)
Definition select_sale_joined (id : Z) : query (list json) :=
  fun st =>
    match int4_range id with
    | inl e => (inl e, st)
    | inr n =>
        (inr (flat_map
                (fun s =>
                   map (sale_json st s)
                       (filter (fun p => p_id p =? s_product_id s) (products st)))
                (filter (fun s => s_id s =? n) (sales st))), st)
    end.

(** ** The routes *)

Definition reply (code : Z) (b : option json) : prog response :=
  Ret (mk_response code b).

(** index.js, the global error handler reached through [next(err)]. *)
Definition internal_error : response :=
  mk_response 500 (error_json "Internal Server Error").

Definition next (err : exn) : prog response :=
  Ret internal_error.

(** [rows[0]] *)
Definition first_row {A : Type} (rows : list A) : option A :=
  match rows with
  | r :: _ => Some r
  | [] => None
  end.

Record product_body : Type := mk_product_body {
  pb_name : jsval;
  pb_description : jsval;
  pb_price : jsval;
  pb_category_id : jsval;
  pb_initial_quantity : jsval
}.

(** [v.trim()] on a value: a TypeError unless [v] is a string. *)
Definition trim_value (v : jsval) : prog string :=
  match v with
  | JStr s => Ret (trim s)
  | _ => Raise TypeError
  end.

(** [POST /api/products] (src/routes/products.js).  The four checks come
    first; the normalisation of the fields stands before the [try]. *)
Definition post_products `{Runtime} (b : product_body) : prog response :=
  let name := pb_name b in
  let description := pb_description b in
  let price := pb_price b in
  if negb (truthy name) || negb (typeof_string name) then
    reply 400 (error_json "Product name is required.")
  else if eq_null price || float_isNaN (parseFloat price)
          || float_ltz (parseFloat price) then
    reply 400 (error_json "Price must be a non-negative number.")
  else
    match (if truthy (pb_category_id b) then parseInt (pb_category_id b)
           else None) with
    | None =>
        reply 400 (error_json
          "category_id is required and must be a valid integer.")
    | Some category_id =>
        match (if eq_null (pb_initial_quantity b) then None
               else parseInt (pb_initial_quantity b)) with
        | None =>
            reply 400 (error_json
              "initial_quantity is required and must be a non-negative integer.")
        | Some initial_quantity =>
            if initial_quantity <? 0 then
              reply 400 (error_json
                "initial_quantity is required and must be a non-negative integer.")
            else
              (name <- trim_value name ;;
               description <- (if truthy description then trim_value description
                               else Ret EmptyString) ;;
               let price := parseFloat price in
               try_catch
                 (newProd <- await (insert_product name description price
                                                   category_id) ;;
                  await (insert_inventory (p_id newProd) initial_quantity) ;;
                  await (insert_history (JNum (p_id newProd))
                                        initial_quantity 0 initial_quantity) ;;
                  fullRes <- await (select_product_joined (p_id newProd)) ;;
                  reply 201 (first_row fullRes))
                 next)%prog
        end
    end.

(** The [try] block of [POST /api/products] on normalised fields;
    [post_products_validated] below shows it is what [post_products] runs
    once the body has passed the checks. *)
Definition create_rows `{Runtime} (name description : string) (price : float)
  (category_id initial_quantity : Z) : prog response :=
  try_catch
    (newProd <- await (insert_product name description price category_id) ;;
     await (insert_inventory (p_id newProd) initial_quantity) ;;
     await (insert_history (JNum (p_id newProd))
                           initial_quantity 0 initial_quantity) ;;
     fullRes <- await (select_product_joined (p_id newProd)) ;;
     reply 201 (first_row fullRes))%prog
    next.

(** [description ? description.trim() : (empty string)] when that does
    not throw. *)
Definition description_text (v : jsval) : option string :=
  if truthy v then
    match v with
    | JStr s => Some (trim s)
    | _ => None
    end
  else Some EmptyString.

(** A body passes the four checks, with [category_id] and
    [initial_quantity] parsed to [cid] and [qty]. *)
Definition passes_validation `{Runtime} (b : product_body) (cid qty : Z) : Prop :=
  truthy (pb_name b) = true /\ typeof_string (pb_name b) = true /\
  eq_null (pb_price b) = false /\
  float_isNaN (parseFloat (pb_price b)) = false /\
  float_ltz (parseFloat (pb_price b)) = false /\
  truthy (pb_category_id b) = true /\ parseInt (pb_category_id b) = Some cid /\
  eq_null (pb_initial_quantity b) = false /\
  parseInt (pb_initial_quantity b) = Some qty /\ 0 <= qty.

Record sale_body : Type := mk_sale_body {
  sb_product_id : jsval;
  sb_quantity : jsval;
  sb_sale_date : jsval
}.

(** [sale_date ? new Date(sale_date) : new Date()], with [now] the time of
    the request; [None] when [getTime()] is NaN. *)
Definition sale_date_of `{Runtime} (now : Z) (sale_date : jsval) : option Z :=
  if truthy sale_date then Date_of sale_date else Some now.

(** [POST /api/sales] (src/routes/sales.js).  [totPrice] is
    [(price * parseInt(quantity, 10)).toFixed(2)]: the stored price has two
    decimals, so the product is a whole number of hundredths, and below
    the bound of NUMERIC(14,2) the double that carries it is within
    0.005 of it; [toFixed(2)] gives it back exactly. *)
Definition post_sales `{Runtime} (now : Z) (b : sale_body) : prog response :=
  let product_id := sb_product_id b in
  let quantity := sb_quantity b in
  if negb (truthy product_id)
     || match parseInt product_id with None => true | Some _ => false end
  then reply 400 (error_json "Valid product_id is required.")
  else
    match (if truthy quantity then parseInt quantity else None) with
    | None => reply 400 (error_json "quantity must be a positive integer.")
    | Some qty =>
        if qty <=? 0 then
          reply 400 (error_json "quantity must be a positive integer.")
        else
          match sale_date_of now (sb_sale_date b) with
          | None => reply 400 (error_json "Invalid sale_date format.")
          | Some saleDate =>
              try_catch
                (pRes <- await (select_price product_id) ;;
                 match pRes with
                 | [] => reply 404 (error_json "Product not found.")
                 | price :: _ =>
                     let totPrice := price * qty in
                     saleId <- await (insert_sale product_id quantity
                                                  totPrice saleDate) ;;
                     invRes <- await (select_inventory product_id) ;;
                     let currQty := match invRes with
                                    | q :: _ => q
                                    | [] => 0
                                    end in
                     let newQty := Z.max 0 (currQty - qty) in
                     await (update_inventory newQty product_id) ;;
                     await (insert_history product_id (- qty) currQty newQty) ;;
                     fullSale <- await (select_sale_joined saleId) ;;
                     reply 201 (first_row fullSale)
                 end)%prog
                next
          end
    end.

Record inventory_body : Type := mk_inventory_body {
  ib_new_quantity : jsval
}.

(** [PUT /api/inventory/:product_id] (src/routes/inventory.js); the path
    parameter is a string. *)
Definition put_inventory (product_id : string) (b : inventory_body)
  : prog response :=
  match parseInt_text product_id with
  | None => reply 400 (error_json "Invalid product_id.")
  | Some productId =>
      let new_quantity := ib_new_quantity b in
      match (if eq_null new_quantity then None else parseInt new_quantity) with
      | None =>
          reply 400 (error_json
            "new_quantity is required and must be a non-negative integer.")
      | Some newQty =>
          if newQty <? 0 then
            reply 400 (error_json
              "new_quantity is required and must be a non-negative integer.")
          else
            try_catch
              (currRes <- await (select_inventory (JNum productId)) ;;
               match currRes with
               | [] =>
                   prodCheck <- await (select_product_id productId) ;;
                   match prodCheck with
                   | [] => reply 404 (error_json "Product not found.")
                   | _ :: _ =>
                       await (insert_inventory productId newQty) ;;
                       await (insert_history (JNum productId) newQty 0 newQty) ;;
                       reply 200 (Some [("product_id", VInt productId);
                                        ("quantity", VInt newQty)]%string)
                   end
               | prevQty :: _ =>
                   await (update_inventory newQty (JNum productId)) ;;
                   let changeQty := newQty - prevQty in
                   await (insert_history (JNum productId) changeQty prevQty newQty) ;;
                   reply 200 (Some [("product_id", VInt productId);
                                    ("previous_quantity", VInt prevQty);
                                    ("new_quantity", VInt newQty)]%string)
               end)%prog
              next
      end
  end.

(** ** Sequences of mutations *)

Inductive mutation : Type :=
| CreateProduct (b : product_body)
| RecordSale (now : Z) (b : sale_body)
| SetInventory (product_id : string) (b : inventory_body).

Definition handler `{Runtime} (m : mutation) : prog response :=
  match m with
  | CreateProduct b => post_products b
  | RecordSale now b => post_sales now b
  | SetInventory product_id b => put_inventory product_id b
  end.

(** The requests served one after the other. *)
Fixpoint serve_all `{Runtime} (ms : list mutation) (st : Store) : Store :=
  match ms with
  | [] => st
  | m :: ms' => serve_all ms' (snd (run (handler m) st))
  end.

(** ** Readers *)

(** [COALESCE(i.quantity, 0)] of the product's first inventory row. *)
Definition stored_quantity (id : Z) (st : Store) : Z :=
  match inventory_of id st with
  | i :: _ => i_quantity i
  | [] => 0
  end.

Definition sum_change_qty (h : list history_row) : Z :=
  fold_right (fun e acc => change_qty e + acc) 0 h.

(** Each entry's [new_qty] is the next entry's [previous_qty]. *)
Fixpoint chained (h : list history_row) : Prop :=
  match h with
  | e1 :: ((e2 :: _) as rest) => new_qty e1 = previous_qty e2 /\ chained rest
  | _ => True
  end.

Fixpoint last_entry (h : list history_row) : option history_row :=
  match h with
  | [] => None
  | [e] => Some e
  | _ :: rest => last_entry rest
  end.

(** The state of the ledger between two requests: the foreign keys and
    the CHECK of [inventory] hold, serial ids are below the sequence,
    every product's history is a chain, and its last entry ends on the
    stored quantity. *)
Definition ledger_ok (st : Store) : Prop :=
  (forall i, In i (inventory st) ->
     has_product st (i_product_id i) = true /\ 0 <= i_quantity i <= int4_max) /\
  (forall h, In h (inventory_history st) ->
     has_product st (h_product_id h) = true) /\
  (forall p, In p (products st) -> p_id p < products_id_seq st) /\
  (forall pid, chained (history_of pid st)) /\
  (forall pid e, last_entry (history_of pid st) = Some e ->
     new_qty e = stored_quantity pid st).

(** ** Claims of the spec stated on the routes *)

(** All-or-nothing creation: a request answered with a failure leaves no
    product row, inventory row or ledger entry behind. *)
Definition all_or_nothing `{Runtime} (b : product_body) (st : Store) : Prop :=
  forall resp st',
    run (post_products b) st = (Returned resp, st') ->
    status resp = 500 ->
    products st' = products st /\ inventory st' = inventory st /\
    inventory_history st' = inventory_history st.

(** ** Example data

    A runtime for the examples.  It agrees with JavaScript on what the
    examples send: prices that are integral Numbers and dates that are
    Number time values; it takes no text for either. *)
Definition example_runtime : Runtime :=
  {| float := option Z;
     parseFloat := fun v => match v with JNum z => Some z | _ => None end;
     float_isNaN := fun x => match x with None => true | Some _ => false end;
     float_ltz := fun x => match x with Some z => z <? 0 | None => false end;
     numeric_in := fun x => match x with Some z => Some (100 * z) | None => None end;
     Date_of := fun v => match v with
                         | JNum t => if Z.abs t <=? 8640000000000000 then Some t
                                     else None
                         | _ => None
                         end;
     timestamptz_in := fun _ => true |}.

(** One category, nothing else. *)
Definition shop0 : Store :=
  mk_store [mk_category 1 "Books"] [] [] [] [] 1 1.

(** [{name: "Atlas", price: 20, category_id: 1, initial_quantity: q}]
    with an empty description. *)
Definition atlas (q : Z) : product_body :=
  mk_product_body (JStr "Atlas") (JStr EmptyString) (JNum 20) (JNum 1) (JNum q).

(** [{product_id: id, quantity: q}] *)
Definition sell (id q : Z) : sale_body :=
  mk_sale_body (JNum id) (JNum q) JUndefined.

(** [{new_quantity: v}] *)
Definition set_to (v : jsval) : inventory_body :=
  mk_inventory_body v.

(** Product 1 with [q] units on hand and the ledger entry of its
    creation. *)
Definition shop_with (q : Z) : Store :=
  mk_store [mk_category 1 "Books"] [mk_product 1 "Atlas" EmptyString 2000 (Some 1)]
           [mk_inventory 1 q] [mk_history 1 q 0 q] [] 2 1.

(** Product 1 without an inventory row. *)
Definition shop_bare : Store :=
  mk_store [mk_category 1 "Books"] [mk_product 1 "Atlas" EmptyString 2000 (Some 1)]
           [] [] [] 2 1.

(** ** The other routes of the three files

    [DELETE /api/products/:id] and [GET /api/products/:id]
    (src/routes/products.js), [GET /api/inventory] and
    [GET /api/inventory/history/:product_id] (src/routes/inventory.js),
    [DELETE /api/categories/:id] (src/routes/categories.js). *)

(** A body that is an object or an array of rows. *)
Inductive payload : Type :=
| Object (o : option json)
| Rows (rows : list json).

Record answer : Type := mk_answer {
  a_status : Z;
  a_payload : payload
}.

Definition answer_error (code : Z) (msg : string) : prog answer :=
  Ret (mk_answer code (Object (error_json msg))).

(** [next(err)] of a route that answers with rows. *)
Definition next_answer (err : exn) : prog answer :=
  Ret (mk_answer 500 (Object (error_json "Internal Server Error"))).

Definition with_categories (st : Store) (cs : list category)
  (ps : list product) : Store :=
  mk_store cs ps (inventory st) (inventory_history st) (sales st)
           (products_id_seq st) (sales_id_seq st).

(** [SELECT COUNT( * ) FROM sales WHERE product_id = $1;] *)
Definition count_sales (id : Z) : query Z :=
  fun st =>
    match int4_range id with
    | inl e => (inl e, st)
    | inr n =>
        (inr (Z.of_nat (List.length (filter (fun s => s_product_id s =? n)
                                       (sales st)))), st)
    end.

(** [DELETE FROM inventory_history WHERE product_id = $1;] *)
Definition delete_history (id : Z) : query unit :=
  fun st =>
    match int4_range id with
    | inl e => (inl e, st)
    | inr n =>
        (inr tt,
         with_history st
           (filter (fun h => negb (h_product_id h =? n)) (inventory_history st)))
    end.

(** [DELETE FROM inventory WHERE product_id = $1;] *)
Definition delete_inventory (id : Z) : query unit :=
  fun st =>
    match int4_range id with
    | inl e => (inl e, st)
    | inr n =>
        (inr tt,
         with_inventory st
           (filter (fun i => negb (i_product_id i =? n)) (inventory st)))
    end.

(** [DELETE FROM products WHERE id = $1 RETURNING id, name;]  A sale that
    references the product refuses the delete (ON DELETE RESTRICT); its
    inventory rows and ledger entries go with it (ON DELETE CASCADE). *)
Definition delete_product (id : Z) : query (list (Z * string)) :=
  fun st =>
    match int4_range id with
    | inl e => (inl e, st)
    | inr n =>
        match filter (fun p => p_id p =? n) (products st) with
        | [] => (inr [], st)
        | gone =>
            if existsb (fun s => s_product_id s =? n) (sales st) then
              (inl foreign_key_violation, st)
            else
              (inr (map (fun p => (p_id p, p_name p)) gone),
               mk_store (categories st)
                 (filter (fun p => negb (p_id p =? n)) (products st))
                 (filter (fun i => negb (i_product_id i =? n)) (inventory st))
                 (filter (fun h => negb (h_product_id h =? n))
                         (inventory_history st))
                 (sales st) (products_id_seq st) (sales_id_seq st))
        end
    end.

(** [DELETE /api/products/:id] (src/routes/products.js);
    [parseInt(chk.rows[0].count, 10) > 0] is [0 <? count]. *)
Definition delete_products (id : string) : prog response :=
  match parseInt_text id with
  | None => reply 400 (error_json "Invalid product ID.")
  | Some id =>
      try_catch
        (chk <- await (count_sales id) ;;
         if 0 <? chk then
           reply 409 (error_json
             "Cannot delete product: sales exist for this product.")
         else
           await (delete_history id) ;;
           await (delete_inventory id) ;;
           del <- await (delete_product id) ;;
           match del with
           | [] => reply 404 (error_json "Product not found.")
           | (_, name) :: _ =>
               reply 200 (Some [("message",
                                 VText ("Deleted product: " ++ name))]%string)
           end)%prog
        next
  end.

(** The store once the product [id], its inventory rows and its ledger
    entries are gone. *)
Definition without_product (id : Z) (st : Store) : Store :=
  mk_store (categories st)
    (filter (fun p => negb (p_id p =? id)) (products st))
    (filter (fun i => negb (i_product_id i =? id)) (inventory st))
    (filter (fun h => negb (h_product_id h =? id)) (inventory_history st))
    (sales st) (products_id_seq st) (sales_id_seq st).

(** [SELECT p.id, ..., c.name AS category_name,
     COALESCE(i.quantity, 0) AS quantity
     FROM products p LEFT JOIN categories c ON p.category_id = c.id
     LEFT JOIN inventory i ON p.id = i.product_id WHERE p.id = $1;] *)
Definition select_product (id : Z) : query (list json) :=
  fun st =>
    match int4_range id with
    | inl e => (inl e, st)
    | inr n =>
        (inr (flat_map
                (fun p =>
                   match inventory_of (p_id p) st with
                   | [] => [product_json st p (VInt 0)]
                   | rows => map (fun i => product_json st p (VInt (i_quantity i))) rows
                   end)
                (filter (fun p => p_id p =? n) (products st))), st)
    end.

(** [GET /api/products/:id] (src/routes/products.js). *)
Definition get_product (id : string) : prog response :=
  match parseInt_text id with
  | None => reply 400 (error_json "Invalid product ID.")
  | Some id =>
      try_catch
        (result <- await (select_product id) ;;
         match result with
         | [] => reply 404 (error_json "Product not found.")
         | row :: _ => reply 200 (Some row)
         end)%prog
        next
  end.




(** The rows of [products p LEFT JOIN inventory i ON p.id = i.product_id]
    with [COALESCE(i.quantity, 0)]. *)
Definition stock_rows (st : Store) : list (product * Z) :=
  flat_map
    (fun p =>
       match inventory_of (p_id p) st with
       | [] => [(p, 0)]
       | rows => map (fun i => (p, i_quantity i)) rows
       end)
    (products st).

(** [ORDER BY quantity ASC]; the order among equal quantities, which the
    store leaves open, is the one of this insertion. *)
Fixpoint insert_by_quantity (r : product * Z) (l : list (product * Z))
  : list (product * Z) :=
  match l with
  | [] => [r]
  | x :: l' => if snd r <=? snd x then r :: l else x :: insert_by_quantity r l'
  end.

Definition order_by_quantity (l : list (product * Z)) : list (product * Z) :=
  fold_right insert_by_quantity [] l.

(** A row comes no later than another in ascending order of quantity. *)
Definition by_quantity (a b : product * Z) : Prop := snd a <= snd b.

Definition stock_json (st : Store) (r : product * Z) : json :=
  [ ("product_id", VInt (p_id (fst r))); ("product_name", VText (p_name (fst r)));
    ("category_id", opt_int (p_category_id (fst r)));
    ("category_name", category_name st (fst r));
    ("quantity", VInt (snd r)) ]%string.

(** The rows the listing selects: all of them, or those with
    [COALESCE(i.quantity,0) <= $1]. *)
Definition low_stock (threshold : option Z) (st : Store) : list (product * Z) :=
  order_by_quantity
    (match threshold with
     | Some thr => filter (fun r => snd r <=? thr) (stock_rows st)
     | None => stock_rows st
     end).

(** [SELECT p.id AS product_id, ..., COALESCE(i.quantity, 0) AS quantity
     FROM products p LEFT JOIN categories c ... LEFT JOIN inventory i ...
     [WHERE COALESCE(i.quantity,0) <= $1] ORDER BY quantity ASC;] *)
Definition select_stock (threshold : option Z) : query (list json) :=
  fun st =>
    match threshold with
    | Some thr =>
        match int4_range thr with
        | inl e => (inl e, st)
        | inr n => (inr (map (stock_json st) (low_stock (Some n) st)), st)
        end
    | None => (inr (map (stock_json st) (low_stock None st)), st)
    end.

(** [GET /api/inventory] (src/routes/inventory.js). *)
Definition get_inventory (low_stock_threshold : jsval) : prog answer :=
  if negb (eq_null low_stock_threshold) then
    match parseInt low_stock_threshold with
    | None =>
        answer_error 400 "low_stock_threshold must be a non-negative integer."
    | Some thr =>
        if thr <? 0 then
          answer_error 400 "low_stock_threshold must be a non-negative integer."
        else
          try_catch
            (result <- await (select_stock (Some thr)) ;;
             Ret (mk_answer 200 (Rows result)))%prog
            next_answer
    end
  else
    try_catch
      (result <- await (select_stock None) ;;
       Ret (mk_answer 200 (Rows result)))%prog
      next_answer.

(** [SELECT COUNT( * ) FROM products WHERE category_id = $1;] *)
Definition count_products (category_id : Z) : query Z :=
  fun st =>
    match int4_range category_id with
    | inl e => (inl e, st)
    | inr n =>
        (inr (Z.of_nat
                (List.length (filter (fun p => match p_category_id p with
                                          | Some c => c =? n
                                          | None => false
                                          end) (products st)))), st)
    end.

(** [DELETE FROM categories WHERE id = $1 RETURNING id, name;]  Products
    of the category are kept with [category_id] NULL (ON DELETE SET
    NULL). *)
Definition delete_category (id : Z) : query (list (Z * string)) :=
  fun st =>
    match int4_range id with
    | inl e => (inl e, st)
    | inr n =>
        (inr (map (fun c => (c_id c, c_name c))
                  (filter (fun c => c_id c =? n) (categories st))),
         match filter (fun c => c_id c =? n) (categories st) with
         | [] => st
         | _ :: _ =>
             with_categories st
               (filter (fun c => negb (c_id c =? n)) (categories st))
               (map (fun p => match p_category_id p with
                              | Some c =>
                                  if c =? n
                                  then mk_product (p_id p) (p_name p)
                                         (p_description p) (p_price p) None
                                  else p
                              | None => p
                              end) (products st))
         end)
    end.

(** [DELETE /api/categories/:id] (src/routes/categories.js). *)
Definition delete_categories (id : string) : prog response :=
  match parseInt_text id with
  | None => reply 400 (error_json "Invalid category ID.")
  | Some id =>
      try_catch
        (chk <- await (count_products id) ;;
         if 0 <? chk then
           reply 409 (error_json
             "Cannot delete: one or more products belong to this category.")
         else
           del <- await (delete_category id) ;;
           match del with
           | [] => reply 404 (error_json "Category not found.")
           | (_, name) :: _ =>
               reply 200 (Some [("message",
                                 VText ("Deleted category " ++ name ++ "."))]%string)
           end)%prog
        next
  end.

(** ** Requests of any of the routes that write the ledger *)

Inductive request : Type :=
| Mutate (m : mutation)
| DeleteProduct (id : string).

Definition serve `{Runtime} (r : request) (st : Store) : Store :=
  match r with
  | Mutate m => snd (run (handler m) st)
  | DeleteProduct id => snd (run (delete_products id) st)
  end.

Fixpoint serve_requests `{Runtime} (rs : list request) (st : Store) : Store :=
  match rs with
  | [] => st
  | r :: rs' => serve_requests rs' (serve r st)
  end.

(** ** What every statement of a handler keeps

    [statements_keep R p]: whichever way [p] goes, each statement it
    sends takes a store to one related to it by [R]. *)
Inductive statements_keep (R : Store -> Store -> Prop) {A : Type}
  : prog A -> Prop :=
| keep_Ret (a : A) : statements_keep R (Ret a)
| keep_Raise (e : exn) : statements_keep R (Raise e)
| keep_Await {T : Type} (q : query T) (k : dberr + T -> prog A) :
    (forall st, R st (snd (q st))) ->
    (forall x, statements_keep R (k x)) ->
    statements_keep R (Await q k).

(** Nothing is rewritten or removed: categories stay, products, ledger
    entries and sales are only added at the end. *)
Definition append_only (st st' : Store) : Prop :=
  categories st' = categories st /\
  (exists l, products st' = products st ++ l) /\
  (exists l, inventory_history st' = inventory_history st ++ l) /\
  (exists l, sales st' = sales st ++ l).

(** Every inventory row holds a quantity the column admits. *)
Definition stock_in_range (st : Store) : Prop :=
  forall i, In i (inventory st) -> 0 <= i_quantity i <= int4_max.

Definition keeps_stock (st st' : Store) : Prop :=
  stock_in_range st -> stock_in_range st'.




(** Product 1 with 4 units and one sale of 2. *)
Definition shop_sold : Store :=
  mk_store [mk_category 1 "Books"]
           [mk_product 1 "Atlas" EmptyString 2000 (Some 1)]
           [mk_inventory 1 4] [mk_history 1 6 0 6; mk_history 1 (-2) 6 4]
           [mk_sale 1 1 2 4000 1000] 2 2.

(** Products 1 and 2, with 4 and 9 units. *)
Definition shop_two : Store :=
  mk_store [mk_category 1 "Books"]
           [mk_product 1 "Atlas" EmptyString 2000 (Some 1);
            mk_product 2 "Globe" EmptyString 3500 (Some 1)]
           [mk_inventory 1 4; mk_inventory 2 9]
           [mk_history 1 4 0 4; mk_history 2 9 0 9] [] 3 1.

(** ** Refusals

    [never_refuses p]: no answer [p] can send has a status 4xx. *)
Inductive never_refuses : prog response -> Prop :=
| nr_Ret (r : response) : ~ 400 <= status r < 500 -> never_refuses (Ret r)
| nr_Raise (e : exn) : never_refuses (Raise e)
| nr_Await {T : Type} (q : query T) (k : dberr + T -> prog response) :
    (forall x, never_refuses (k x)) -> never_refuses (Await q k).

(** [refuses_before_writing p]: each statement [p] sends either leaves
    the store as it is, or is followed by no answer 4xx. *)
Inductive refuses_before_writing : prog response -> Prop :=
| rb_Ret (r : response) : refuses_before_writing (Ret r)
| rb_Raise (e : exn) : refuses_before_writing (Raise e)
| rb_Read {T : Type} (q : query T) (k : dberr + T -> prog response) :
    (forall st, snd (q st) = st) ->
    (forall x, refuses_before_writing (k x)) ->
    refuses_before_writing (Await q k)
| rb_Write {T : Type} (q : query T) (k : dberr + T -> prog response) :
    (forall x, never_refuses (k x)) ->
    refuses_before_writing (Await q k).

(** * Properties *)

(** A run that ended on an early [return res.status(...)]. *)
Ltac answered H :=
  cbn in H; inversion H; subst; cbn in *; try discriminate; try lia.

(** ** Running a handler statement by statement *)

Lemma run_await {A R : Type} (q : query R) (f : R -> prog A) (h : exn -> prog A)
  (st : Store) :
  run (try_catch (bind (await q) f) h) st =
  match q st with
  | (inl e, st') => run (h (DbError e)) st'
  | (inr r, st') => run (try_catch (f r) h) st'
  end.
Proof.
  cbn. destruct (q st) as [[e | r] st']; reflexivity.
Qed.

Lemma run_failing_await {A R : Type} (n : nat) (q : query R) (f : R -> prog A)
  (h : exn -> prog A) (st : Store) :
  run_failing (S n) (try_catch (bind (await q) f) h) st =
  match q st with
  | (inl e, st') => run_failing n (h (DbError e)) st'
  | (inr r, st') => run_failing n (try_catch (f r) h) st'
  end.
Proof.
  cbn. destruct (q st) as [[e | r] st']; reflexivity.
Qed.

Lemma run_step {A : Type} (p : prog A) (st : Store) :
  run p st = run (fst (step p st)) (snd (step p st)).
Proof.
  destruct p as [a | e | R q k]; cbn; try reflexivity.
  destruct (q st) as [x st']; reflexivity.
Qed.

(** Resumed alone until it has answered, a handler does what [run]
    says. *)
Lemma serial_schedule_is_run {A : Type} (n : nat) (p : prog A) (st : Store)
  (a : A) :
  fst (interleave (repeat O n) [p] st) = [Ret a] ->
  run p st = (Returned a, snd (interleave (repeat O n) [p] st)).
Proof.
  revert p st. induction n as [| n IH]; intros p st; cbn.
  - intros E. inversion E; subst. reflexivity.
  - rewrite (run_step p st). destruct (step p st) as [p' st']. cbn.
    apply IH.
Qed.

(** ** Text and integers *)

Lemma int4_range_inv (z n : Z) :
  int4_range z = inr n -> n = z /\ int4_min <= z <= int4_max.
Proof.
  unfold int4_range.
  destruct (int4_min <=? z) eqn:Hlo; destruct (z <=? int4_max) eqn:Hhi;
    cbn; intros E; inversion E; subst.
  apply Z.leb_le in Hlo. apply Z.leb_le in Hhi. lia.
Qed.

Lemma int4_range_ok (z : Z) :
  int4_min <= z <= int4_max -> int4_range z = inr z.
Proof.
  intros [Hlo Hhi]. unfold int4_range.
  apply Z.leb_le in Hlo. apply Z.leb_le in Hhi.
  rewrite Hlo, Hhi. reflexivity.
Qed.

(** What the store reads as an integer, [parseInt] reads as the same
    integer. *)
Lemma int4_text_parseInt (s : string) (n : Z) :
  int4_text s = inr n -> parseInt_text s = Some n /\ s <> EmptyString.
Proof.
  unfold int4_text, parseInt_text.
  destruct (take_sign (skip_space s)) as [sg s1] eqn:Hs.
  destruct (take_digits None s1) as [[m |] rest] eqn:Hd; cbn; [| discriminate].
  destruct (skip_space rest); [| discriminate].
  intros E. apply int4_range_inv in E. destruct E as [-> _].
  split; [reflexivity |].
  intros ->. cbn in Hs. inversion Hs; subst. cbn in Hd. discriminate.
Qed.

Lemma bind_int4_parseInt (v : jsval) (n : Z) :
  bind_int4 v = inr (Some n) -> parseInt v = Some n.
Proof.
  destruct v as [| | b | z | s]; cbn; try discriminate.
  - destruct (int4_range z) as [e | m] eqn:E; [discriminate |].
    apply int4_range_inv in E. destruct E as [-> _]. congruence.
  - destruct (int4_text s) as [e | m] eqn:E; [discriminate |].
    apply int4_text_parseInt in E. destruct E as [E _].
    intros H. inversion H; subst. exact E.
Qed.

Lemma bind_int4_in_range (v : jsval) (n : Z) :
  bind_int4 v = inr (Some n) -> int4_min <= n <= int4_max.
Proof.
  destruct v as [| | b | z | s]; cbn; try discriminate.
  - destruct (int4_range z) as [e | m] eqn:E; [discriminate |].
    apply int4_range_inv in E. intros H. inversion H; subst. lia.
  - unfold int4_text.
    destruct (take_sign (skip_space s)) as [sg s1].
    destruct (take_digits None s1) as [[m |] rest]; [| discriminate].
    destruct (skip_space rest); [| discriminate].
    destruct (int4_range (sg * m)) as [e | k] eqn:E; [discriminate |].
    apply int4_range_inv in E. intros H. inversion H; subst. lia.
Qed.


(** ** Lists of rows *)

Lemma find_filter {A : Type} (f : A -> bool) (l : list A) (a : A) :
  find f l = Some a -> exists rest, filter f l = a :: rest.
Proof.
  induction l as [| x l IH]; cbn; [discriminate |].
  destruct (f x) eqn:E.
  - intros H. inversion H; subst. eexists. reflexivity.
  - exact IH.
Qed.


Lemma filter_nil_existsb {A : Type} (f : A -> bool) (l : list A) :
  filter f l = [] -> existsb f l = false.
Proof.
  induction l as [| x l IH]; cbn; [reflexivity |].
  destruct (f x); [discriminate | exact IH].
Qed.


(** ** A sale the store accepts *)




(** C1.  Product 1 holds 3 units and 5 are sold: the quantity becomes 0,
    and the entry the sale appends carries [change_qty = -5], the quantity
    asked for, with [previous_qty = 3] and [new_qty = 0]. *)
Example oversold_sale_records_requested_quantity :
  let st' := snd (run (@post_sales example_runtime 1000 (sell 1 5))
                      (shop_with 3)) in
  stored_quantity 1 st' = 0 /\
  inventory_history st' = [mk_history 1 3 0 3; mk_history 1 (-5) 3 0] /\
  change_qty (mk_history 1 (-5) 3 0) <> - stored_quantity 1 (shop_with 3).
Proof.
  cbn. repeat split. discriminate.
Qed.

(** ** Setting the inventory *)

Lemma select_inventory_number (id : Z) (st : Store) :
  select_inventory (JNum id) st =
  match int4_range id with
  | inl e => (inl e, st)
  | inr n => (inr (map i_quantity (inventory_of n st)), st)
  end.
Proof.
  unfold select_inventory, bind_int4. destruct (int4_range id); reflexivity.
Qed.

(** C7, as the route does it.  A set-inventory call answered 200 on a
    product that has an inventory row carries
    [{product_id, previous_quantity, new_quantity}], with the stored
    quantity as [previous_quantity]; on a product without an inventory
    row it carries [{product_id, quantity}] instead. *)
Theorem put_inventory_response (product_id : string) (b : inventory_body)
  (st st' : Store) (resp : response) :
  run (put_inventory product_id b) st = (Returned resp, st') ->
  status resp = 200 ->
  exists id n,
    parseInt_text product_id = Some id /\
    parseInt (ib_new_quantity b) = Some n /\ 0 <= n /\
    ((inventory_of id st <> [] /\
      body resp = Some [("product_id", VInt id);
                        ("previous_quantity", VInt (stored_quantity id st));
                        ("new_quantity", VInt n)]%string) \/
     (inventory_of id st = [] /\
      body resp = Some [("product_id", VInt id);
                        ("quantity", VInt n)]%string)).
Proof.
  unfold put_inventory. intros Hrun Hok.
  destruct (parseInt_text product_id) as [id |]; [| answered Hrun].
  destruct (eq_null (ib_new_quantity b)); [answered Hrun |].
  destruct (parseInt (ib_new_quantity b)) as [n |]; [| answered Hrun].
  destruct (n <? 0) eqn:Hneg; [answered Hrun |].
  apply Z.ltb_ge in Hneg.
  exists id, n. repeat split; auto.
  rewrite run_await, select_inventory_number in Hrun.
  destruct (int4_range id) as [e | id'] eqn:Hid; [answered Hrun |].
  apply int4_range_inv in Hid. destruct Hid as [-> Hid].
  unfold stored_quantity.
  destruct (inventory_of id st) as [| i rows] eqn:Hrows; cbn [map] in Hrun.
  - right. split; [reflexivity |].
    rewrite run_await in Hrun. unfold select_product_id at 1 in Hrun.
    destruct (int4_range id) as [e | id']; [answered Hrun |].
    destruct (map p_id _) as [| x xs]; [answered Hrun |].
    rewrite run_await in Hrun.
    destruct (insert_inventory id n st) as [[e | []] st1]; [answered Hrun |].
    rewrite run_await in Hrun.
    destruct (insert_history (JNum id) n 0 n st1) as [[e | []] st2];
      answered Hrun.
    reflexivity.
  - left. split; [discriminate |].
    rewrite run_await in Hrun.
    destruct (update_inventory n (JNum id) st) as [[e | []] st1];
      [answered Hrun |].
    rewrite run_await in Hrun.
    destruct (insert_history (JNum id) (n - i_quantity i) (i_quantity i) n st1)
      as [[e | []] st2]; answered Hrun.
    reflexivity.
Qed.

Lemma put_inventory_response_witness :
  exists id n,
    parseInt_text "1" = Some id /\
    parseInt (JNum 5) = Some n /\ 0 <= n /\
    ((inventory_of id (shop_with 40) <> [] /\
      Some [("product_id", VInt 1); ("previous_quantity", VInt 40);
            ("new_quantity", VInt 5)]%string
      = Some [("product_id", VInt id);
              ("previous_quantity", VInt (stored_quantity id (shop_with 40)));
              ("new_quantity", VInt n)]%string) \/
     (inventory_of id (shop_with 40) = [] /\
      Some [("product_id", VInt 1); ("previous_quantity", VInt 40);
            ("new_quantity", VInt 5)]%string
      = Some [("product_id", VInt id); ("quantity", VInt n)]%string)).
Proof.
  apply (put_inventory_response "1" (set_to (JNum 5)) (shop_with 40)
           (snd (run (put_inventory "1" (set_to (JNum 5))) (shop_with 40)))
           (mk_response 200
              (Some [("product_id", VInt 1); ("previous_quantity", VInt 40);
                     ("new_quantity", VInt 5)]%string)));
    reflexivity.
Defined.

(** C7, as the spec words it, fails on a product that has no inventory
    row yet: the body is [{product_id, quantity}], with no
    [previous_quantity] and no [new_quantity]. *)
Lemma put_inventory_first_row_response :
  fst (run (put_inventory "1" (set_to (JNum 7))) shop_bare)
    = Returned (mk_response 200
                  (Some [("product_id", VInt 1); ("quantity", VInt 7)]%string))
  /\ fst (run (put_inventory "1" (set_to (JNum 7))) shop_bare)
    <> Returned (mk_response 200
                  (Some [("product_id", VInt 1); ("previous_quantity", VInt 0);
                         ("new_quantity", VInt 7)]%string)).
Proof.
  split; [reflexivity | discriminate].
Qed.

Lemma existsb_filter_nil {A : Type} (f : A -> bool) (l : list A) :
  existsb f l = false -> filter f l = [].
Proof.
  induction l as [| x l IH]; cbn; [reflexivity |].
  destruct (f x); [discriminate | exact IH].
Qed.




(** ** Creating a product *)

Lemma post_products_validated `{Runtime} (b : product_body) (cid qty : Z)
  (description : string) :
  passes_validation b cid qty ->
  description_text (pb_description b) = Some description ->
  exists name,
    pb_name b = JStr name /\
    post_products b =
      create_rows (trim name) description (parseFloat (pb_price b)) cid qty.
Proof.
  intros (Hn1 & Hn2 & Hp1 & Hp2 & Hp3 & Hc1 & Hc2 & Hq1 & Hq2 & Hq3) Hd.
  destruct (pb_name b) as [| | | | name] eqn:Hname; try discriminate.
  exists name. split; [reflexivity |].
  unfold post_products, create_rows.
  rewrite Hname, Hn1, Hp1, Hp2, Hp3, Hc1, Hc2, Hq1, Hq2.
  replace (qty <? 0) with false by (symmetry; apply Z.ltb_ge; exact Hq3).
  cbn [negb orb typeof_string trim_value bind].
  unfold description_text in Hd.
  destruct (truthy (pb_description b)).
  - destruct (pb_description b); try discriminate.
    inversion Hd; subst. reflexivity.
  - inversion Hd; subst. reflexivity.
Qed.

(** A request the route answers 201 has passed the checks and its
    description did not throw. *)
Lemma post_products_created `{Runtime} (b : product_body) (st st' : Store)
  (resp : response) :
  run (post_products b) st = (Returned resp, st') -> status resp = 201 ->
  exists cid qty description,
    passes_validation b cid qty /\
    description_text (pb_description b) = Some description.
Proof.
  unfold post_products, passes_validation, description_text.
  intros Hrun Hok.
  destruct (truthy (pb_name b)); [| answered Hrun].
  destruct (typeof_string (pb_name b)) eqn:Hs; [| answered Hrun].
  destruct (eq_null (pb_price b)); [answered Hrun |].
  destruct (float_isNaN (parseFloat (pb_price b))); [answered Hrun |].
  destruct (float_ltz (parseFloat (pb_price b))); [answered Hrun |].
  destruct (truthy (pb_category_id b)); [| answered Hrun].
  destruct (parseInt (pb_category_id b)) as [cid |]; [| answered Hrun].
  destruct (eq_null (pb_initial_quantity b)); [answered Hrun |].
  destruct (parseInt (pb_initial_quantity b)) as [qty |]; [| answered Hrun].
  destruct (Z.ltb_spec qty 0) as [Hneg | Hpos]; [answered Hrun |].
  exists cid, qty.
  destruct (pb_name b) as [| | | | name]; try discriminate.
  cbn [negb orb trim_value bind] in Hrun.
  destruct (truthy (pb_description b)).
  - destruct (pb_description b) as [| | | | d]; try (cbn in Hrun; discriminate).
    exists (trim d). repeat split; auto.
  - exists EmptyString. repeat split; auto.
Qed.

(** What [INSERT INTO products] does to the tables. *)
Lemma insert_product_cases `{Runtime} (name description : string)
  (price : float) (cid : Z) (st : Store) :
  (exists e st',
     insert_product name description price cid st = (inl e, st') /\
     categories st' = categories st /\ products st' = products st /\
     inventory st' = inventory st /\
     inventory_history st' = inventory_history st /\
     products_id_seq st <= products_id_seq st')
  \/ (exists cents,
        let row := mk_product (products_id_seq st) name description cents
                              (Some cid) in
        insert_product name description price cid st =
          (inr row,
           with_products st (products st ++ [row]) (products_id_seq st + 1)) /\
        has_category st cid = true /\
        1 <= products_id_seq st <= int4_max).
Proof.
  unfold insert_product.
  destruct (numeric_in price) as [cents |].
  2:{ left. exists numeric_value_out_of_range, st. repeat split; lia. }
  destruct (int4_range cid) as [e | cid'] eqn:Hcid.
  { left. exists e, st. repeat split; lia. }
  apply int4_range_inv in Hcid. destruct Hcid as [-> Hcid].
  cbv zeta.
  destruct (Z.ltb_spec (products_id_seq st) 1).
  { left. eexists. exists st. cbn. repeat split; lia. }
  destruct (Z.ltb_spec int4_max (products_id_seq st)).
  { left. eexists. exists st. cbn. repeat split; lia. }
  cbn [orb].
  destruct (150 <? _).
  { left. eexists. eexists. split; [reflexivity |]. cbn. repeat split; lia. }
  destruct (10 ^ 12 <=? _).
  { left. eexists. eexists. split; [reflexivity |]. cbn. repeat split; lia. }
  destruct (cents <? 0).
  { left. eexists. eexists. split; [reflexivity |]. cbn. repeat split; lia. }
  destruct (has_category st cid) eqn:Hcat; cbn [negb].
  - right. exists cents. cbv zeta. repeat split; auto; lia.
  - left. eexists. eexists. split; [reflexivity |]. cbn. repeat split; lia.
Qed.



(** ** What each write does to the tables *)

Lemma insert_inventory_cases (pid q : Z) (st : Store) :
  (exists e, insert_inventory pid q st = (inl e, st))
  \/ (insert_inventory pid q st =
        (inr tt, with_inventory st (inventory st ++ [mk_inventory pid q])) /\
      has_product st pid = true /\ 0 <= q <= int4_max).
Proof.
  unfold insert_inventory.
  destruct (int4_range pid) as [e | pid'] eqn:Hpid; [left; eauto |].
  destruct (int4_range q) as [e | q'] eqn:Hq; [left; eauto |].
  apply int4_range_inv in Hpid. destruct Hpid as [-> _].
  apply int4_range_inv in Hq. destruct Hq as [-> Hq].
  destruct (Z.ltb_spec q 0); [left; eauto |].
  destruct (has_product st pid) eqn:Hhas; cbn [negb]; [| left; eauto].
  right. repeat split; auto; lia.
Qed.

Lemma insert_history_cases (v : jsval) (c p n : Z) (st : Store) :
  (exists e, insert_history v c p n st = (inl e, st))
  \/ (exists pid,
        bind_int4 v = inr (Some pid) /\
        insert_history v c p n st =
          (inr tt,
           with_history st (inventory_history st ++ [mk_history pid c p n])) /\
        has_product st pid = true).
Proof.
  unfold insert_history.
  destruct (bind_int4 v) as [e | [pid |]];
    destruct (int4_range c) as [e1 | c'] eqn:Hc;
    destruct (int4_range p) as [e2 | p'] eqn:Hp;
    destruct (int4_range n) as [e3 | n'] eqn:Hn;
    try (left; eexists; reflexivity).
  apply int4_range_inv in Hc. destruct Hc as [-> _].
  apply int4_range_inv in Hp. destruct Hp as [-> _].
  apply int4_range_inv in Hn. destruct Hn as [-> _].
  destruct (has_product st pid) eqn:Hhas; cbn [negb]; [| left; eauto].
  right. exists pid. repeat split. exact Hhas.
Qed.

Lemma update_inventory_cases (q : Z) (v : jsval) (st : Store) :
  (exists e, update_inventory q v st = (inl e, st))
  \/ (update_inventory q v st = (inr tt, st) /\ bind_int4 v = inr None)
  \/ (exists pid,
        bind_int4 v = inr (Some pid) /\
        update_inventory q v st =
          (inr tt, with_inventory st (set_quantity pid q (inventory st))) /\
        q <= int4_max /\ (inventory_of pid st <> [] -> 0 <= q)).
Proof.
  unfold update_inventory.
  destruct (int4_range q) as [e | q'] eqn:Hq.
  { left. destruct (bind_int4 v); eauto. }
  apply int4_range_inv in Hq. destruct Hq as [-> Hq].
  destruct (bind_int4 v) as [e | [pid |]]; [left; eauto | | right; left; auto].
  destruct (existsb _ (inventory st)) eqn:Hex; cbn [andb].
  - destruct (Z.ltb_spec q 0); [left; eauto |].
    right. right. exists pid. repeat split; auto; lia.
  - right. right. exists pid. repeat split; auto; try lia.
    intros Hne. exfalso. apply Hne. unfold inventory_of.
    apply existsb_filter_nil. exact Hex.
Qed.

(** C4, as the route does it.  The inserts of a create-product request
    are committed one by one.  For a request that is answered 201 when
    nothing fails: if the product insert fails nothing is persisted; if
    the inventory insert fails the product row stays, without inventory
    row or ledger entry; if the history insert fails the product row and
    the inventory row stay, without ledger entry.  Each time the answer
    is the generic 500. *)
Theorem create_product_commits_stepwise `{Runtime} (b : product_body)
  (st st_ok : Store) (resp : response) :
  run (post_products b) st = (Returned resp, st_ok) -> status resp = 201 ->
  exists p qty,
    products st_ok = products st ++ [p] /\
    inventory st_ok = inventory st ++ [mk_inventory (p_id p) qty] /\
    inventory_history st_ok =
      inventory_history st ++ [mk_history (p_id p) qty 0 qty] /\
    run_failing 0 (post_products b) st = (Returned internal_error, st) /\
    (exists st1,
       run_failing 1 (post_products b) st = (Returned internal_error, st1) /\
       products st1 = products st ++ [p] /\
       inventory st1 = inventory st /\
       inventory_history st1 = inventory_history st) /\
    (exists st2,
       run_failing 2 (post_products b) st = (Returned internal_error, st2) /\
       products st2 = products st ++ [p] /\
       inventory st2 = inventory st ++ [mk_inventory (p_id p) qty] /\
       inventory_history st2 = inventory_history st).
Proof.
  intros Hrun Hok.
  destruct (post_products_created b st st_ok resp Hrun Hok)
    as (cid & qty & description & Hval & Hdesc).
  destruct (post_products_validated b cid qty description Hval Hdesc)
    as (name & _ & Hpost).
  rewrite Hpost in *. clear Hpost. unfold create_rows in *.
  rewrite run_await in Hrun.
  destruct (insert_product_cases (trim name) description
              (parseFloat (pb_price b)) cid st)
    as [(e & st' & E1 & _) | (cents & E1 & _ & _)];
    cbv zeta in E1; rewrite E1 in Hrun; [answered Hrun |].
  set (p := mk_product (products_id_seq st) (trim name) description cents
                       (Some cid)) in *.
  set (st1 := with_products st (products st ++ [p]) (products_id_seq st + 1))
    in *.
  rewrite run_await in Hrun.
  destruct (insert_inventory_cases (p_id p) qty st1)
    as [(e & E2) | (E2 & _ & _)]; rewrite E2 in Hrun; [answered Hrun |].
  set (st2 := with_inventory st1 _) in *.
  rewrite run_await in Hrun.
  destruct (insert_history_cases (JNum (p_id p)) qty 0 qty st2)
    as [(e & E3) | (pid & Hpid & E3 & _)]; rewrite E3 in Hrun;
    [answered Hrun |].
  assert (pid = p_id p) as ->.
  { apply bind_int4_parseInt in Hpid. cbn in Hpid. inversion Hpid. reflexivity. }
  rewrite run_await in Hrun.
  assert (Hst : st_ok = with_history st2
                  (inventory_history st2 ++ [mk_history (p_id p) qty 0 qty])).
  { destruct (select_product_joined (p_id p) _) as [[e | rows] st3] eqn:E4;
      unfold select_product_joined in E4;
      destruct (int4_range (p_id p)); inversion E4; subst;
      cbn in Hrun; inversion Hrun; reflexivity. }
  exists p, qty. subst st_ok. cbn [products inventory inventory_history
                                    with_history with_inventory with_products
                                    st2 st1].
  repeat split.
  - exists st1. rewrite run_failing_await, E1. repeat split.
  - exists st2. rewrite run_failing_await, E1, run_failing_await, E2.
    repeat split.
Qed.

Lemma create_product_commits_stepwise_witness :
  exists p qty,
    products (shop_with 50) = products shop0 ++ [p] /\
    inventory (shop_with 50) = inventory shop0 ++ [mk_inventory (p_id p) qty] /\
    inventory_history (shop_with 50) =
      inventory_history shop0 ++ [mk_history (p_id p) qty 0 qty] /\
    run_failing 0 (@post_products example_runtime (atlas 50)) shop0
      = (Returned internal_error, shop0) /\
    (exists st1,
       run_failing 1 (@post_products example_runtime (atlas 50)) shop0
         = (Returned internal_error, st1) /\
       products st1 = products shop0 ++ [p] /\
       inventory st1 = inventory shop0 /\
       inventory_history st1 = inventory_history shop0) /\
    (exists st2,
       run_failing 2 (@post_products example_runtime (atlas 50)) shop0
         = (Returned internal_error, st2) /\
       products st2 = products shop0 ++ [p] /\
       inventory st2 = inventory shop0 ++ [mk_inventory (p_id p) qty] /\
       inventory_history st2 = inventory_history shop0).
Proof.
  apply (@create_product_commits_stepwise example_runtime (atlas 50) shop0
           (shop_with 50)
           (mk_response 201
              (Some (product_json (shop_with 50)
                       (mk_product 1 "Atlas" EmptyString 2000 (Some 1))
                       (VInt 50)))));
    reflexivity.
Defined.

(** C4, as the spec words it, fails: with [initial_quantity] one above
    the INTEGER range the product insert succeeds, the inventory insert
    is refused, the answer is 500, and the product row is there. *)
Lemma create_product_not_all_or_nothing :
  ~ @all_or_nothing example_runtime (atlas 2147483648) shop0.
Proof.
  intros Hall.
  destruct (Hall internal_error
              (mk_store [mk_category 1 "Books"]
                        [mk_product 1 "Atlas" EmptyString 2000 (Some 1)] [] [] [] 2 1)
              eq_refl eq_refl) as [Hp _].
  discriminate Hp.
Qed.

(** ** The ledger between two requests *)

Lemma last_entry_app (l : list history_row) (e : history_row) :
  last_entry (l ++ [e]) = Some e.
Proof.
  induction l as [| x l IH]; [reflexivity |].
  cbn [app last_entry]. destruct (l ++ [e]) eqn:E.
  - destruct l; discriminate.
  - exact IH.
Qed.

Lemma chained_app (l : list history_row) (e : history_row) :
  chained l ->
  (forall e', last_entry l = Some e' -> new_qty e' = previous_qty e) ->
  chained (l ++ [e]).
Proof.
  induction l as [| x l IH]; intros Hl Hlast; [exact I |].
  destruct l as [| y l].
  - cbn. split; [apply Hlast; reflexivity | exact I].
  - cbn [app chained] in *. destruct Hl as [Hxy Hl].
    split; [exact Hxy |]. apply IH; [exact Hl | exact Hlast].
Qed.

Lemma history_of_app (pid : Z) (st st' : Store) (e : history_row) :
  inventory_history st' = inventory_history st ++ [e] ->
  history_of pid st' =
  if h_product_id e =? pid then history_of pid st ++ [e] else history_of pid st.
Proof.
  intros E. unfold history_of. rewrite E, filter_app. cbn [filter].
  destruct (h_product_id e =? pid); [reflexivity | apply app_nil_r].
Qed.

Lemma inventory_of_set (pid q pid' : Z) (inv : list inventory_row) :
  filter (fun i => i_product_id i =? pid') (set_quantity pid q inv) =
  if pid =? pid'
  then map (fun _ => mk_inventory pid q)
           (filter (fun i => i_product_id i =? pid') inv)
  else filter (fun i => i_product_id i =? pid') inv.
Proof.
  unfold set_quantity.
  induction inv as [| i inv IH]; cbn [map filter].
  - destruct (pid =? pid'); reflexivity.
  - destruct (Z.eqb_spec (i_product_id i) pid) as [Ei | Ei].
    + cbn [i_product_id]. rewrite IH. subst pid.
      destruct (Z.eqb_spec (i_product_id i) pid'); reflexivity.
    + rewrite IH.
      destruct (Z.eqb_spec pid pid') as [Ep | Ep].
      * subst pid'. destruct (Z.eqb_spec (i_product_id i) pid);
          [contradiction | reflexivity].
      * reflexivity.
Qed.

Lemma stored_quantity_set (pid q pid' : Z) (st st' : Store) :
  inventory st' = set_quantity pid q (inventory st) ->
  stored_quantity pid' st' =
  if pid =? pid'
  then match inventory_of pid' st with [] => 0 | _ :: _ => q end
  else stored_quantity pid' st.
Proof.
  intros E. unfold stored_quantity, inventory_of. rewrite E, inventory_of_set.
  destruct (pid =? pid'); [| reflexivity].
  destruct (filter _ (inventory st)); reflexivity.
Qed.

Lemma stored_quantity_first_row (pid q pid' : Z) (st st' : Store) :
  inventory st' = inventory st ++ [mk_inventory pid q] ->
  inventory_of pid st = [] ->
  stored_quantity pid' st' = if pid =? pid' then q else stored_quantity pid' st.
Proof.
  intros E Hnone. unfold stored_quantity, inventory_of in *.
  rewrite E, filter_app. cbn [filter i_product_id].
  destruct (Z.eqb_spec pid pid') as [-> | Hne].
  - rewrite Hnone. reflexivity.
  - rewrite app_nil_r. reflexivity.
Qed.

Lemma has_product_same (st st' : Store) (id : Z) :
  products st' = products st -> has_product st' id = has_product st id.
Proof.
  intros E. unfold has_product. rewrite E. reflexivity.
Qed.

Lemma In_set_quantity (pid q : Z) (inv : list inventory_row) (i : inventory_row) :
  In i (set_quantity pid q inv) ->
  In i inv \/ (i = mk_inventory pid q /\ exists j, In j inv /\ i_product_id j = pid).
Proof.
  unfold set_quantity. intros Hin. apply in_map_iff in Hin.
  destruct Hin as (j & Hj & Hin).
  destruct (Z.eqb_spec (i_product_id j) pid) as [E | E].
  - right. split; [congruence |]. exists j. auto.
  - left. congruence.
Qed.

Lemma history_of_same (st st' : Store) (pid : Z) :
  inventory_history st' = inventory_history st ->
  history_of pid st' = history_of pid st.
Proof.
  intros E. unfold history_of. rewrite E. reflexivity.
Qed.

Lemma stored_quantity_same (st st' : Store) (pid : Z) :
  inventory st' = inventory st ->
  stored_quantity pid st' = stored_quantity pid st.
Proof.
  intros E. unfold stored_quantity, inventory_of. rewrite E. reflexivity.
Qed.

(** A request that wrote neither table. *)
Lemma ledger_ok_frame (st st' : Store) :
  ledger_ok st ->
  products st' = products st ->
  products_id_seq st <= products_id_seq st' ->
  inventory st' = inventory st ->
  inventory_history st' = inventory_history st ->
  ledger_ok st'.
Proof.
  intros (Hinv & Hhist & Hprod & Hchain & Hlast) Ep Es Ei Eh.
  unfold ledger_ok. split; [| split; [| split; [| split]]].
  - intros i Hin. rewrite (has_product_same st st' _ Ep).
    rewrite Ei in Hin. apply Hinv, Hin.
  - intros h Hin. rewrite (has_product_same st st' _ Ep).
    rewrite Eh in Hin. apply Hhist, Hin.
  - intros p Hin. rewrite Ep in Hin. specialize (Hprod p Hin). lia.
  - intros pid. rewrite (history_of_same st st' pid Eh). apply Hchain.
  - intros pid e. rewrite (history_of_same st st' pid Eh).
    rewrite (stored_quantity_same st st' pid Ei). apply Hlast.
Qed.

(** [UPDATE inventory] to [q] followed by the ledger entry from the
    stored quantity to [q]. *)
Lemma ledger_ok_set (st st' : Store) (pid q c : Z) :
  ledger_ok st ->
  has_product st pid = true ->
  0 <= q <= int4_max ->
  (inventory_of pid st = [] -> q = 0) ->
  products st' = products st ->
  products_id_seq st <= products_id_seq st' ->
  inventory st' = set_quantity pid q (inventory st) ->
  inventory_history st' =
    inventory_history st ++ [mk_history pid c (stored_quantity pid st) q] ->
  ledger_ok st'.
Proof.
  intros (Hinv & Hhist & Hprod & Hchain & Hlast) Hhas Hq Hzero Ep Es Ei Eh.
  unfold ledger_ok. split; [| split; [| split; [| split]]].
  - intros i Hin. rewrite (has_product_same st st' _ Ep).
    rewrite Ei in Hin. apply In_set_quantity in Hin.
    destruct Hin as [Hin | (-> & _)]; [apply Hinv, Hin |].
    cbn. auto.
  - intros h Hin. rewrite (has_product_same st st' _ Ep).
    rewrite Eh in Hin. apply in_app_iff in Hin.
    destruct Hin as [Hin | [<- | []]]; [apply Hhist, Hin | exact Hhas].
  - intros p Hin. rewrite Ep in Hin. specialize (Hprod p Hin). lia.
  - intros pid'. rewrite (history_of_app pid' st st' _ Eh). cbn [h_product_id].
    destruct (pid =? pid') eqn:E; [| apply Hchain].
    apply Z.eqb_eq in E. subst pid'.
    apply chained_app; [apply Hchain |].
    intros e' He'. cbn. apply Hlast, He'.
  - intros pid' e. rewrite (history_of_app pid' st st' _ Eh).
    rewrite (stored_quantity_set pid q pid' st st' Ei). cbn [h_product_id].
    destruct (pid =? pid') eqn:E; [| apply Hlast].
    apply Z.eqb_eq in E. subst pid'.
    rewrite last_entry_app. intros He. inversion He; subst e. cbn.
    destruct (inventory_of pid st); [apply Hzero |]; reflexivity.
Qed.

(** The first [INSERT INTO inventory] of a product followed by the
    ledger entry from 0 to [q]. *)
Lemma ledger_ok_first_row (st st' : Store) (pid q c : Z) :
  ledger_ok st ->
  has_product st pid = true ->
  0 <= q <= int4_max ->
  inventory_of pid st = [] ->
  products st' = products st ->
  products_id_seq st <= products_id_seq st' ->
  inventory st' = inventory st ++ [mk_inventory pid q] ->
  inventory_history st' = inventory_history st ++ [mk_history pid c 0 q] ->
  ledger_ok st'.
Proof.
  intros (Hinv & Hhist & Hprod & Hchain & Hlast) Hhas Hq Hnone Ep Es Ei Eh.
  assert (Hstored : stored_quantity pid st = 0)
    by (unfold stored_quantity; rewrite Hnone; reflexivity).
  unfold ledger_ok. split; [| split; [| split; [| split]]].
  - intros i Hin. rewrite (has_product_same st st' _ Ep).
    rewrite Ei in Hin. apply in_app_iff in Hin.
    destruct Hin as [Hin | [<- | []]]; [apply Hinv, Hin |].
    cbn. auto.
  - intros h Hin. rewrite (has_product_same st st' _ Ep).
    rewrite Eh in Hin. apply in_app_iff in Hin.
    destruct Hin as [Hin | [<- | []]]; [apply Hhist, Hin | exact Hhas].
  - intros p Hin. rewrite Ep in Hin. specialize (Hprod p Hin). lia.
  - intros pid'. rewrite (history_of_app pid' st st' _ Eh). cbn [h_product_id].
    destruct (pid =? pid') eqn:E; [| apply Hchain].
    apply Z.eqb_eq in E. subst pid'.
    apply chained_app; [apply Hchain |].
    intros e' He'. cbn. rewrite <- Hstored. apply Hlast, He'.
  - intros pid' e. rewrite (history_of_app pid' st st' _ Eh).
    rewrite (stored_quantity_first_row pid q pid' st st' Ei Hnone).
    cbn [h_product_id].
    destruct (pid =? pid') eqn:E; [| apply Hlast].
    rewrite last_entry_app. intros He. inversion He; subst e. reflexivity.
Qed.

Lemma has_product_exists (st : Store) (id : Z) :
  has_product st id = true -> exists p, In p (products st) /\ p_id p = id.
Proof.
  unfold has_product. intros H. apply existsb_exists in H.
  destruct H as (p & Hin & E). apply Z.eqb_eq in E. eauto.
Qed.

(** [INSERT INTO products] with the next serial id. *)
Lemma ledger_ok_new_product (st st' : Store) (p : product) :
  ledger_ok st ->
  products st' = products st ++ [p] ->
  p_id p = products_id_seq st ->
  products_id_seq st' = products_id_seq st + 1 ->
  inventory st' = inventory st ->
  inventory_history st' = inventory_history st ->
  ledger_ok st' /\ has_product st' (p_id p) = true /\
  inventory_of (p_id p) st' = [].
Proof.
  intros (Hinv & Hhist & Hprod & Hchain & Hlast) Ep Eid Es Ei Eh.
  assert (Hmono : forall id, has_product st id = true ->
                             has_product st' id = true).
  { intros id Hid. unfold has_product in *. rewrite Ep, existsb_app, Hid.
    reflexivity. }
  split; [| split].
  - unfold ledger_ok. split; [| split; [| split; [| split]]].
    + intros i Hin. rewrite Ei in Hin. destruct (Hinv i Hin). auto.
    + intros h Hin. rewrite Eh in Hin. auto.
    + intros p' Hin. rewrite Ep in Hin. apply in_app_iff in Hin.
      destruct Hin as [Hin | [<- | []]]; [specialize (Hprod p' Hin) |]; lia.
    + intros pid. rewrite (history_of_same st st' pid Eh). apply Hchain.
    + intros pid e. rewrite (history_of_same st st' pid Eh).
      rewrite (stored_quantity_same st st' pid Ei). apply Hlast.
  - unfold has_product. rewrite Ep, existsb_app. cbn.
    rewrite Z.eqb_refl. rewrite orb_true_r. reflexivity.
  - unfold inventory_of. rewrite Ei.
    destruct (filter _ (inventory st)) as [| i rows] eqn:E; [reflexivity |].
    assert (Hin : In i (filter (fun i => i_product_id i =? p_id p) (inventory st)))
      by (rewrite E; left; reflexivity).
    apply filter_In in Hin. destruct Hin as [Hin Hi].
    apply Z.eqb_eq in Hi. destruct (Hinv i Hin) as [Hhas _].
    apply has_product_exists in Hhas. destruct Hhas as (p' & Hp' & E').
    specialize (Hprod p' Hp'). lia.
Qed.

Lemma stored_quantity_range (st : Store) (pid : Z) :
  ledger_ok st -> 0 <= stored_quantity pid st <= int4_max.
Proof.
  intros (Hinv & _). unfold stored_quantity, inventory_of.
  destruct (filter _ (inventory st)) as [| i rows] eqn:E.
  - unfold int4_max. lia.
  - assert (Hin : In i (filter (fun i => i_product_id i =? pid) (inventory st)))
      by (rewrite E; left; reflexivity).
    apply filter_In in Hin. destruct Hin as [Hin _]. apply Hinv, Hin.
Qed.

Lemma inventory_row_has_product (st : Store) (pid : Z) :
  ledger_ok st -> inventory_of pid st <> [] -> has_product st pid = true.
Proof.
  intros (Hinv & _) Hne. unfold inventory_of in Hne.
  destruct (filter _ (inventory st)) as [| i rows] eqn:E; [contradiction |].
  assert (Hin : In i (filter (fun i => i_product_id i =? pid) (inventory st)))
    by (rewrite E; left; reflexivity).
  apply filter_In in Hin. destruct Hin as [Hin Hi]. apply Z.eqb_eq in Hi.
  subst pid. apply Hinv, Hin.
Qed.

Lemma update_inventory_ok (q pid : Z) (v : jsval) (st : Store) :
  bind_int4 v = inr (Some pid) -> 0 <= q <= int4_max ->
  update_inventory q v st =
  (inr tt, with_inventory st (set_quantity pid q (inventory st))).
Proof.
  intros Hv Hq. unfold update_inventory.
  rewrite int4_range_ok by (unfold int4_min, int4_max in *; lia).
  rewrite Hv.
  replace (q <? 0) with false by (symmetry; apply Z.ltb_ge; lia).
  rewrite andb_false_r. reflexivity.
Qed.

Lemma insert_history_ok (v : jsval) (pid c p n : Z) (st : Store) :
  bind_int4 v = inr (Some pid) ->
  int4_min <= c <= int4_max -> int4_min <= p <= int4_max ->
  int4_min <= n <= int4_max ->
  has_product st pid = true ->
  insert_history v c p n st =
  (inr tt, with_history st (inventory_history st ++ [mk_history pid c p n])).
Proof.
  intros Hv Hc Hp Hn Hhas. unfold insert_history.
  rewrite Hv, !int4_range_ok by assumption. rewrite Hhas. reflexivity.
Qed.

Lemma bind_int4_number (id : Z) :
  int4_min <= id <= int4_max -> bind_int4 (JNum id) = inr (Some id).
Proof.
  intros Hid. cbn. rewrite (int4_range_ok id Hid). reflexivity.
Qed.

Lemma select_sale_joined_store (id : Z) (st : Store) :
  snd (select_sale_joined id st) = st.
Proof.
  unfold select_sale_joined. destruct (int4_range id); reflexivity.
Qed.

Lemma select_product_joined_store (id : Z) (st : Store) :
  snd (select_product_joined id st) = st.
Proof.
  unfold select_product_joined. destruct (int4_range id); reflexivity.
Qed.

(** The last statement of a route reads; whatever it returns, the store
    is the one it was given. *)
Lemma run_last_select {R : Type} (q : query R) (code : Z)
  (f : R -> option json) (st : Store) :
  snd (q st) = st ->
  snd (run (try_catch (bind (await q) (fun r => reply code (f r))) next) st)
  = st.
Proof.
  intros Hq. rewrite run_await. destruct (q st) as [[e | r] st']; exact Hq.
Qed.

Section Ledger.

Context `{R : Runtime}.

Lemma insert_sale_cases (v1 v2 : jsval) (total d : Z) (st : Store) :
  (exists e st',
     insert_sale v1 v2 total d st = (inl e, st') /\
     products st' = products st /\
     products_id_seq st' = products_id_seq st /\
     inventory st' = inventory st /\
     inventory_history st' = inventory_history st)
  \/ (exists pid q,
        bind_int4 v1 = inr (Some pid) /\ bind_int4 v2 = inr (Some q) /\
        0 < q /\ has_product st pid = true /\
        insert_sale v1 v2 total d st =
          (inr (sales_id_seq st),
           with_sales st
             (sales st ++ [mk_sale (sales_id_seq st) pid q total d])
             (sales_id_seq st + 1))).
Proof.
  unfold insert_sale.
  destruct (bind_int4 v1) as [e | opid]; [left; exists e, st; auto |].
  destruct (bind_int4 v2) as [e | oq]; [left; exists e, st; auto |].
  destruct (timestamptz_in d); cbn [negb]; [| left; eexists; exists st; auto].
  cbv zeta.
  destruct (_ || _); [left; eexists; exists st; auto |].
  destruct (10 ^ 14 <=? _);
    [left; eexists; eexists; split; [reflexivity | auto] |].
  destruct opid as [pid |];
    [| left; eexists; eexists; split; [reflexivity | auto]].
  destruct oq as [q |];
    [| left; eexists; eexists; split; [reflexivity | auto]].
  destruct (Z.leb_spec q 0); cbn [orb];
    [left; eexists; eexists; split; [reflexivity | auto] |].
  destruct (total <? 0);
    [left; eexists; eexists; split; [reflexivity | auto] |].
  destruct (has_product st pid) eqn:Hhas; cbn [negb];
    [| left; eexists; eexists; split; [reflexivity | auto]].
  right. exists pid, q. repeat split; auto.
Qed.

Lemma post_sales_ledger (now : Z) (b : sale_body) (st : Store) :
  ledger_ok st -> ledger_ok (snd (run (post_sales now b) st)).
Proof.
  intros Hok. unfold post_sales.
  destruct (_ || _); [exact Hok |].
  destruct (if truthy (sb_quantity b) then parseInt (sb_quantity b) else None)
    as [qty |] eqn:Hqty; [| exact Hok].
  destruct (Z.leb_spec qty 0) as [Hneg | Hpos]; [exact Hok |].
  destruct (sale_date_of now (sb_sale_date b)) as [d |]; [| exact Hok].
  rewrite run_await. unfold select_price at 1.
  destruct (bind_int4 (sb_product_id b)) as [e | [pid |]] eqn:Hpid;
    [exact Hok | | exact Hok].
  destruct (filter _ (products st)) as [| p rest]; cbn [map]; [exact Hok |].
  rewrite run_await.
  destruct (insert_sale_cases (sb_product_id b) (sb_quantity b)
              (p_price p * qty) d st)
    as [(e & st' & -> & Ep & Es & Ei & Eh) |
        (pid' & q & Hpid' & Hq & _ & Hhas & ->)].
  { cbn. apply (ledger_ok_frame st st' Hok); auto. lia. }
  assert (pid' = pid) as -> by congruence.
  assert (q = qty) as ->.
  { apply bind_int4_parseInt in Hq. destruct (truthy (sb_quantity b));
      congruence. }
  pose proof (bind_int4_in_range _ _ Hq) as Rqty.
  pose proof (stored_quantity_range st pid Hok) as Rcur.
  set (st1 := with_sales st _ _).
  rewrite run_await. unfold select_inventory at 1. rewrite Hpid.
  assert (Hcurr : match map i_quantity (inventory_of pid st1) with
                  | x :: _ => x
                  | [] => 0
                  end = stored_quantity pid st).
  { unfold stored_quantity, inventory_of, st1. cbn.
    destruct (filter _ (inventory st)); reflexivity. }
  rewrite Hcurr.
  set (newQty := Z.max 0 (stored_quantity pid st - qty)).
  assert (Rnew : 0 <= newQty <= int4_max) by (unfold newQty; lia).
  rewrite run_await, (update_inventory_ok newQty pid) by assumption.
  rewrite run_await.
  rewrite (insert_history_ok _ pid)
    by (auto; unfold int4_min, int4_max in *; lia).
  set (st3 := with_history _ _).
  rewrite run_last_select by apply select_sale_joined_store.
  apply (ledger_ok_set st st3 pid newQty (- qty) Hok Hhas Rnew);
    try reflexivity.
  intros Hnone. unfold newQty, stored_quantity. rewrite Hnone. lia.
Qed.

Lemma put_inventory_ledger (product_id : string) (b : inventory_body)
  (st : Store) :
  ledger_ok st -> ledger_ok (snd (run (put_inventory product_id b) st)).
Proof.
  intros Hok. unfold put_inventory.
  destruct (parseInt_text product_id) as [id |]; [| exact Hok].
  destruct (if eq_null (ib_new_quantity b) then None
            else parseInt (ib_new_quantity b)) as [n |]; [| exact Hok].
  destruct (Z.ltb_spec n 0) as [Hneg | Hpos]; [exact Hok |].
  rewrite run_await, select_inventory_number.
  destruct (int4_range id) as [e | id'] eqn:Hid; [exact Hok |].
  apply int4_range_inv in Hid. destruct Hid as [-> Hid].
  pose proof (stored_quantity_range st id Hok) as Rcur.
  destruct (inventory_of id st) as [| i rows] eqn:Hrows; cbn [map].
  - rewrite run_await. unfold select_product_id at 1.
    rewrite (int4_range_ok id Hid).
    destruct (filter (fun p => p_id p =? id) (products st)) as [| x xs] eqn:Hp;
      cbn [map]; [exact Hok |].
    assert (Hhas : has_product st id = true).
    { unfold has_product. destruct (existsb _ _) eqn:E; [reflexivity |].
      apply existsb_filter_nil in E. congruence. }
    rewrite run_await.
    destruct (insert_inventory_cases id n st) as [(e & ->) | (-> & _ & Hn)];
      [exact Hok |].
    rewrite run_await.
    rewrite (insert_history_ok _ id)
      by (auto using bind_int4_number; unfold int4_min, int4_max in *; lia).
    apply (ledger_ok_first_row st _ id n n Hok Hhas Hn Hrows);
      reflexivity.
  - assert (Hprev : i_quantity i = stored_quantity id st)
      by (unfold stored_quantity; rewrite Hrows; reflexivity).
    assert (Hhas : has_product st id = true)
      by (apply (inventory_row_has_product st id Hok); rewrite Hrows;
          discriminate).
    rewrite Hprev.
    rewrite run_await.
    destruct (update_inventory_cases n (JNum id) st)
      as [(e & ->) | [(_ & Hnone) | (pid & Hpid & -> & Hmax & _)]];
      [exact Hok | rewrite (bind_int4_number id Hid) in Hnone; discriminate |].
    rewrite (bind_int4_number id Hid) in Hpid. inversion Hpid; subst pid.
    rewrite run_await.
    rewrite (insert_history_ok _ id)
      by (auto using bind_int4_number; unfold int4_min, int4_max in *; lia).
    apply (ledger_ok_set st _ id n (n - stored_quantity id st) Hok Hhas);
      try reflexivity; [lia |].
    intros Hnone. rewrite Hnone in Hrows. discriminate.
Qed.

Lemma create_rows_ledger (name description : string)
  (price : float) (cid qty : Z) (st : Store) :
  ledger_ok st ->
  ledger_ok (snd (run (create_rows name description price cid qty) st)).
Proof.
  intros Hok. unfold create_rows. rewrite run_await.
  destruct (insert_product_cases name description price cid st)
    as [(e & st' & -> & _ & Ep & Ei & Eh & Es) | (cents & E1 & _ & Hseq)].
  { cbn. apply (ledger_ok_frame st st' Hok); auto. }
  cbv zeta in E1. rewrite E1. clear E1.
  set (p := mk_product (products_id_seq st) name description cents (Some cid)).
  set (st1 := with_products st (products st ++ [p]) (products_id_seq st + 1)).
  destruct (ledger_ok_new_product st st1 p Hok) as (Hok1 & Hhas1 & Hnone1);
    try reflexivity.
  rewrite run_await.
  destruct (insert_inventory_cases (p_id p) qty st1)
    as [(e & ->) | (-> & _ & Hqty)]; [exact Hok1 |].
  rewrite run_await.
  rewrite (insert_history_ok _ (p_id p))
    by (auto; try apply bind_int4_number; cbn;
        unfold int4_min, int4_max in *; lia).
  rewrite run_last_select by apply select_product_joined_store.
  apply (ledger_ok_first_row st1 _ (p_id p) qty qty Hok1 Hhas1 Hqty Hnone1);
    reflexivity.
Qed.

Lemma post_products_ledger (b : product_body) (st : Store) :
  ledger_ok st -> ledger_ok (snd (run (post_products b) st)).
Proof.
  intros Hok. unfold post_products. cbv zeta.
  destruct (negb (truthy (pb_name b)) || negb (typeof_string (pb_name b)))
    eqn:Hname; [exact Hok |].
  destruct (eq_null (pb_price b) || _ || _); [exact Hok |].
  destruct (if truthy (pb_category_id b) then parseInt (pb_category_id b)
            else None) as [cid |]; [| exact Hok].
  destruct (if eq_null (pb_initial_quantity b) then None
            else parseInt (pb_initial_quantity b)) as [qty |]; [| exact Hok].
  destruct (qty <? 0); [exact Hok |].
  destruct (pb_name b) as [| | | | name];
    try (cbn in Hname; rewrite ?orb_true_r in Hname; discriminate).
  cbn [trim_value bind].
  destruct (truthy (pb_description b)).
  - destruct (pb_description b) as [| | | | d]; try exact Hok.
    apply create_rows_ledger, Hok.
  - apply create_rows_ledger, Hok.
Qed.

Lemma serve_all_ledger (ms : list mutation) (st : Store) :
  ledger_ok st -> ledger_ok (serve_all ms st).
Proof.
  revert st. induction ms as [| m ms IH]; intros st Hok; [exact Hok |].
  cbn [serve_all]. apply IH.
  destruct m as [b | now b | product_id b]; cbn [handler].
  - apply post_products_ledger, Hok.
  - apply post_sales_ledger, Hok.
  - apply put_inventory_ledger, Hok.
Qed.

Lemma empty_ledger_ok (st : Store) :
  products st = [] -> inventory st = [] -> inventory_history st = [] ->
  ledger_ok st.
Proof.
  intros Ep Ei Eh. unfold ledger_ok, history_of. rewrite Ep, Ei, Eh. cbn.
  repeat split; try contradiction; discriminate.
Qed.


End Ledger.


(** ** Where the routes leave the spec *)

(** C2.  The entry appended by the sale of 5 units out of 3 has
    [previous_qty = 3], [change_qty = -5] and [new_qty = 0]: [new_qty] is
    not [previous_qty + change_qty]. *)
Example oversold_sale_entry_does_not_add_up :
  let st' := snd (run (@post_sales example_runtime 1000 (sell 1 5))
                      (shop_with 3)) in
  exists e,
    In e (inventory_history st') /\
    e = mk_history 1 (-5) 3 0 /\
    new_qty e <> previous_qty e + change_qty e.
Proof.
  cbn. exists (mk_history 1 (-5) 3 0).
  split; [right; left; reflexivity |]. split; [reflexivity | discriminate].
Qed.

(** C3.  A product is created with 3 units and 5 are sold: the stored
    quantity is 0 while the [change_qty] of its ledger entries sum to
    -2. *)
Example oversold_sale_breaks_the_ledger_sum :
  let st' := @serve_all example_runtime
               [CreateProduct (atlas 3); RecordSale 1000 (sell 1 5)] shop0 in
  stored_quantity 1 st' = 0 /\
  history_of 1 st' = [mk_history 1 3 0 3; mk_history 1 (-5) 3 0] /\
  sum_change_qty (history_of 1 st') = -2.
Proof.
  cbn. repeat split.
Qed.

(** C5.  Two sales of one unit of product 1, which holds 2 units.  Served
    one after the other they leave 0.  Resumed in turn, each reads the
    quantity before the other writes: both are answered 201, the stored
    quantity is 1, and both ledger entries go from 2 to 1. *)
Example concurrent_sales_lose_an_update :
  let requests := [@post_sales example_runtime 1000 (sell 1 1);
                   @post_sales example_runtime 2000 (sell 1 1)] in
  (let (ps, st') := interleave [0; 0; 0; 0; 0; 0; 1; 1; 1; 1; 1; 1]%nat
                               requests (shop_with 2) in
   map (fun p => option_map status (sent p)) ps = [Some 201; Some 201] /\
   stored_quantity 1 st' = 0 /\
   history_of 1 st' =
     [mk_history 1 2 0 2; mk_history 1 (-1) 2 1; mk_history 1 (-1) 1 0]) /\
  (let (ps, st') := interleave [0; 0; 0; 1; 1; 1; 0; 0; 0; 1; 1; 1]%nat
                               requests (shop_with 2) in
   map (fun p => option_map status (sent p)) ps = [Some 201; Some 201] /\
   stored_quantity 1 st' = 1 /\
   history_of 1 st' =
     [mk_history 1 2 0 2; mk_history 1 (-1) 2 1; mk_history 1 (-1) 2 1] /\
   ~ chained (history_of 1 st')).
Proof.
  cbn. repeat split. intros (_ & H & _). discriminate H.
Qed.

(** * More of the routes *)

(** ** What every statement keeps, every run keeps *)

Lemma keep_bind (R : Store -> Store -> Prop) {A B : Type} (p : prog A)
  (f : A -> prog B) :
  statements_keep R p -> (forall a, statements_keep R (f a)) ->
  statements_keep R (bind p f).
Proof.
  intros Hp Hf. induction Hp as [a | e | T q k Hq Hk IH]; cbn.
  - apply Hf.
  - constructor.
  - constructor; [exact Hq | exact IH].
Qed.

Lemma keep_try_catch (R : Store -> Store -> Prop) {A : Type} (p : prog A)
  (h : exn -> prog A) :
  statements_keep R p -> (forall e, statements_keep R (h e)) ->
  statements_keep R (try_catch p h).
Proof.
  intros Hp Hh. induction Hp as [a | e | T q k Hq Hk IH]; cbn.
  - constructor.
  - apply Hh.
  - constructor; [exact Hq | exact IH].
Qed.

Lemma keep_await (R : Store -> Store -> Prop) {T : Type} (q : query T) :
  (forall st, R st (snd (q st))) -> statements_keep R (await q).
Proof.
  intros Hq. unfold await. constructor; [exact Hq |].
  intros [e | r]; constructor.
Qed.

Section Runs.

Variable R : Store -> Store -> Prop.
Hypothesis R_refl : forall st, R st st.
Hypothesis R_trans : forall a b c, R a b -> R b c -> R a c.

Lemma keep_run {A : Type} (p : prog A) (st : Store) :
  statements_keep R p -> R st (snd (run p st)).
Proof.
  intros Hp. revert st.
  induction Hp as [a | e | T q k Hq Hk IH]; intros st; cbn.
  - apply R_refl.
  - apply R_refl.
  - specialize (Hq st). destruct (q st) as [x st1]. cbn in Hq.
    apply (R_trans _ st1); [exact Hq | apply IH].
Qed.

Lemma keep_run_failing {A : Type} (n : nat) (p : prog A) (st : Store) :
  statements_keep R p -> R st (snd (run_failing n p st)).
Proof.
  intros Hp. revert n st.
  induction Hp as [a | e | T q k Hq Hk IH]; intros n st;
    destruct n as [| n]; cbn; try apply R_refl.
  - apply keep_run, Hk.
  - specialize (Hq st). destruct (q st) as [x st1]. cbn in Hq.
    apply (R_trans _ st1); [exact Hq | apply IH].
Qed.

Lemma keep_step {A : Type} (p : prog A) (st : Store) :
  statements_keep R p ->
  statements_keep R (fst (step p st)) /\ R st (snd (step p st)).
Proof.
  intros Hp. destruct Hp as [a | e | T q k Hq Hk]; cbn.
  - split; [constructor | apply R_refl].
  - split; [constructor | apply R_refl].
  - specialize (Hq st). destruct (q st) as [x st1]. cbn in *.
    split; [apply Hk | exact Hq].
Qed.

Lemma Forall_set_nth {A : Type} (P : A -> Prop) (i : nat) (a : A)
  (l : list A) :
  Forall P l -> P a -> Forall P (set_nth i a l).
Proof.
  intros Hl Ha. revert i.
  induction Hl as [| b l Hb Hl IH]; intros i; destruct i as [| i]; cbn;
    constructor; auto.
Qed.

Lemma keep_interleave {A : Type} (schedule : list nat) (ps : list (prog A))
  (st : Store) :
  Forall (statements_keep R) ps -> R st (snd (interleave schedule ps st)).
Proof.
  revert ps st.
  induction schedule as [| i schedule IH]; intros ps st Hps; cbn.
  - apply R_refl.
  - destruct (nth_error ps i) as [p |] eqn:Hi; [| apply IH, Hps].
    assert (Hp : statements_keep R p).
    { apply nth_error_In in Hi. rewrite Forall_forall in Hps. apply Hps, Hi. }
    destruct (keep_step p st Hp) as [Hp' Hst].
    destruct (step p st) as [p' st1]. cbn in *.
    apply (R_trans _ st1); [exact Hst |].
    apply IH. apply Forall_set_nth; assumption.
Qed.

End Runs.

(** ** Statements that read *)

Lemma select_price_store (v : jsval) (st : Store) :
  snd (select_price v st) = st.
Proof.
  unfold select_price. destruct (bind_int4 v) as [e | [n |]]; reflexivity.
Qed.

Lemma select_inventory_store (v : jsval) (st : Store) :
  snd (select_inventory v st) = st.
Proof.
  unfold select_inventory. destruct (bind_int4 v) as [e | [n |]]; reflexivity.
Qed.

Lemma select_product_id_store (id : Z) (st : Store) :
  snd (select_product_id id st) = st.
Proof.
  unfold select_product_id. destruct (int4_range id); reflexivity.
Qed.

(** Splits a handler at its awaits and branches. *)
Ltac keeps :=
  unfold reply, next in *;
  repeat match goal with
         | |- statements_keep _ (Ret _) => constructor
         | |- statements_keep _ (Raise _) => constructor
         | |- statements_keep _ (try_catch _ _) =>
             apply keep_try_catch; [| intros; constructor]
         | |- statements_keep _ (bind _ _) => apply keep_bind; [| intros]
         | |- statements_keep _ (await _) => apply keep_await; intros
         | |- statements_keep _ (trim_value ?v) => destruct v; cbn [trim_value]
         | |- statements_keep _ (match ?x with _ => _ end) => destruct x
         end.

Section Writes.

Context `{RT : Runtime}.
Variable R : Store -> Store -> Prop.
Hypothesis R_refl : forall st, R st st.
Hypothesis keep_insert_product :
  forall name description price cid st,
    R st (snd (insert_product name description price cid st)).
Hypothesis keep_insert_inventory :
  forall pid q st, R st (snd (insert_inventory pid q st)).
Hypothesis keep_insert_history :
  forall v c p n st, R st (snd (insert_history v c p n st)).
Hypothesis keep_update_inventory :
  forall q v st, R st (snd (update_inventory q v st)).
Hypothesis keep_insert_sale :
  forall v1 v2 total d st, R st (snd (insert_sale v1 v2 total d st)).

Ltac reads :=
  rewrite ?select_price_store, ?select_inventory_store,
    ?select_product_id_store, ?select_sale_joined_store,
    ?select_product_joined_store;
  auto.

Lemma post_products_keeps (b : product_body) :
  statements_keep R (post_products b).
Proof.
  unfold post_products. cbv zeta. keeps; reads.
Qed.

Lemma post_sales_keeps (now : Z) (b : sale_body) :
  statements_keep R (post_sales now b).
Proof.
  unfold post_sales. cbv zeta. keeps; reads.
Qed.

Lemma put_inventory_keeps (product_id : string) (b : inventory_body) :
  statements_keep R (put_inventory product_id b).
Proof.
  unfold put_inventory. cbv zeta. keeps; reads.
Qed.

Lemma handler_keeps (m : mutation) : statements_keep R (handler m).
Proof.
  destruct m; cbn [handler].
  - apply post_products_keeps.
  - apply post_sales_keeps.
  - apply put_inventory_keeps.
Qed.

End Writes.

(** ** Nothing is rewritten *)

Lemma append_only_refl (st : Store) : append_only st st.
Proof.
  unfold append_only. repeat split; exists []; symmetry; apply app_nil_r.
Qed.

Lemma append_only_trans (a b c : Store) :
  append_only a b -> append_only b c -> append_only a c.
Proof.
  intros (Hc1 & (p1 & Hp1) & (h1 & Hh1) & (s1 & Hs1))
         (Hc2 & (p2 & Hp2) & (h2 & Hh2) & (s2 & Hs2)).
  unfold append_only. repeat split.
  - congruence.
  - exists (p1 ++ p2). rewrite Hp2, Hp1, app_assoc. reflexivity.
  - exists (h1 ++ h2). rewrite Hh2, Hh1, app_assoc. reflexivity.
  - exists (s1 ++ s2). rewrite Hs2, Hs1, app_assoc. reflexivity.
Qed.

Lemma append_only_tables (st st' : Store) (p : list product)
  (h : list history_row) (s : list sale) :
  categories st' = categories st ->
  products st' = products st ++ p ->
  inventory_history st' = inventory_history st ++ h ->
  sales st' = sales st ++ s ->
  append_only st st'.
Proof.
  intros Hc Hp Hh Hs. unfold append_only.
  split; [exact Hc |]. split; [exists p; exact Hp |].
  split; [exists h; exact Hh | exists s; exact Hs].
Qed.

Ltac unchanged := symmetry; apply app_nil_r.

Lemma insert_product_appends `{Runtime} (name description : string)
  (price : float) (cid : Z) (st : Store) :
  append_only st (snd (insert_product name description price cid st)).
Proof.
  unfold insert_product.
  destruct (numeric_in price); [| apply append_only_refl].
  destruct (int4_range cid); [apply append_only_refl |]. cbv zeta.
  repeat match goal with
         | |- context [if ?c then _ else _] => destruct c
         end;
    cbn; eapply append_only_tables; cbn; try reflexivity; unchanged.
Qed.

Lemma insert_inventory_appends (pid q : Z) (st : Store) :
  append_only st (snd (insert_inventory pid q st)).
Proof.
  destruct (insert_inventory_cases pid q st) as [(e & ->) | (-> & _)].
  - apply append_only_refl.
  - eapply append_only_tables; cbn; try reflexivity; unchanged.
Qed.

Lemma insert_history_appends (v : jsval) (c p n : Z) (st : Store) :
  append_only st (snd (insert_history v c p n st)).
Proof.
  destruct (insert_history_cases v c p n st)
    as [(e & ->) | (pid & _ & -> & _)].
  - apply append_only_refl.
  - eapply append_only_tables; cbn; try reflexivity; unchanged.
Qed.

Lemma update_inventory_appends (q : Z) (v : jsval) (st : Store) :
  append_only st (snd (update_inventory q v st)).
Proof.
  destruct (update_inventory_cases q v st)
    as [(e & ->) | [(-> & _) | (pid & _ & -> & _)]];
    try apply append_only_refl.
  eapply append_only_tables; cbn; try reflexivity; unchanged.
Qed.

Lemma insert_sale_appends `{Runtime} (v1 v2 : jsval) (total d : Z)
  (st : Store) :
  append_only st (snd (insert_sale v1 v2 total d st)).
Proof.
  unfold insert_sale.
  repeat match goal with
         | |- context [match ?c with _ => _ end] => destruct c
         end;
    cbn; try apply append_only_refl;
    eapply append_only_tables; cbn; try reflexivity; unchanged.
Qed.

(** X1.  The three routes that write the ledger only ever add: however
    their requests are interleaved at the awaits, and wherever the
    connection fails in one of them, the categories are the same and the
    products, the ledger entries and the sales of the store before are
    still there, in place, followed by the new ones. *)
Theorem writes_are_append_only `{Runtime} (schedule : list nat)
  (ms : list mutation) (n : nat) (m : mutation) (st : Store) :
  append_only st (snd (interleave schedule (map handler ms) st)) /\
  append_only st (snd (run_failing n (handler m) st)).
Proof.
  assert (Hkeep : forall m', statements_keep append_only (handler m')).
  { intros m'.
    apply (handler_keeps append_only append_only_refl);
      intros; auto using insert_product_appends, insert_inventory_appends,
        insert_history_appends, update_inventory_appends, insert_sale_appends. }
  split.
  - apply (keep_interleave append_only append_only_refl append_only_trans).
    apply Forall_forall. intros p Hin. apply in_map_iff in Hin.
    destruct Hin as (m' & <- & _). apply Hkeep.
  - apply (keep_run_failing append_only append_only_refl append_only_trans).
    apply Hkeep.
Qed.

(** ** Stock stays within the column *)

Lemma stock_same (st st' : Store) :
  inventory st' = inventory st -> keeps_stock st st'.
Proof.
  intros E Hst i Hin. rewrite E in Hin. apply Hst, Hin.
Qed.

Lemma insert_inventory_stock (pid q : Z) (st : Store) :
  keeps_stock st (snd (insert_inventory pid q st)).
Proof.
  destruct (insert_inventory_cases pid q st) as [(e & ->) | (-> & _ & Hq)].
  - apply stock_same. reflexivity.
  - intros Hst i Hin. cbn in Hin. apply in_app_iff in Hin.
    destruct Hin as [Hin | [<- | []]]; [apply Hst, Hin | exact Hq].
Qed.

Lemma update_inventory_stock (q : Z) (v : jsval) (st : Store) :
  keeps_stock st (snd (update_inventory q v st)).
Proof.
  destruct (update_inventory_cases q v st)
    as [(e & ->) | [(-> & _) | (pid & _ & -> & Hmax & Hmin)]];
    try (apply stock_same; reflexivity).
  intros Hst i Hin. cbn in Hin. apply In_set_quantity in Hin.
  destruct Hin as [Hin | (-> & j & Hj & Ej)]; [apply Hst, Hin |].
  cbn. split; [| exact Hmax]. apply Hmin. unfold inventory_of.
  intros Hnil.
  assert (Hin : In j (filter (fun i => i_product_id i =? pid) (inventory st))).
  { apply filter_In. split; [exact Hj | apply Z.eqb_eq, Ej]. }
  rewrite Hnil in Hin. contradiction.
Qed.

Lemma handler_keeps_stock `{Runtime} (m : mutation) :
  statements_keep keeps_stock (handler m).
Proof.
  apply handler_keeps.
  - intros st Hst. exact Hst.
  - intros. apply stock_same. unfold insert_product.
    repeat match goal with
           | |- context [match ?c with _ => _ end] => destruct c
           end; reflexivity.
  - apply insert_inventory_stock.
  - intros. apply stock_same.
    destruct (insert_history_cases v c p n st)
      as [(e & ->) | (pid & _ & -> & _)]; reflexivity.
  - apply update_inventory_stock.
  - intros. apply stock_same. unfold insert_sale.
    repeat match goal with
           | |- context [match ?c with _ => _ end] => destruct c
           end; reflexivity.
Qed.

(** X2.  Stock never leaves the range of its column: if every inventory
    row holds a quantity between 0 and 2147483647, then, however the
    requests of the three writing routes are interleaved, every product
    still reads a quantity between 0 and 2147483647. *)
Theorem stock_stays_in_range `{Runtime} (schedule : list nat)
  (ms : list mutation) (st : Store) (pid : Z) :
  stock_in_range st ->
  0 <= stored_quantity pid (snd (interleave schedule (map handler ms) st))
    <= int4_max.
Proof.
  intros Hst.
  assert (Hst' : stock_in_range
                   (snd (interleave schedule (map handler ms) st))).
  { refine (keep_interleave keeps_stock _ _ schedule _ st _ Hst).
    - intros s Hs. exact Hs.
    - intros a b c Hab Hbc Ha. apply Hbc, Hab, Ha.
    - apply Forall_forall. intros p Hin. apply in_map_iff in Hin.
      destruct Hin as (m & <- & _). apply handler_keeps_stock. }
  unfold stored_quantity, inventory_of.
  destruct (filter _ _) as [| i rows] eqn:E; [unfold int4_max; lia |].
  apply Hst'.
  assert (Hin : In i (i :: rows)) by (left; reflexivity).
  rewrite <- E in Hin. apply filter_In in Hin. apply Hin.
Qed.

Lemma stock_stays_in_range_witness :
  stock_in_range (shop_with 2) /\
  0 <= stored_quantity 1
         (snd (interleave [0; 0; 0; 1; 1; 1; 0; 0; 0; 1; 1; 1]%nat
                 (map (@handler example_runtime)
                      [RecordSale 1000 (sell 1 5); RecordSale 2000 (sell 1 1)])
                 (shop_with 2)))
    <= int4_max.
Proof.
  assert (Hst : stock_in_range (shop_with 2)).
  { intros i [<- | []]. cbn. unfold int4_max. lia. }
  split; [exact Hst |].
  exact (@stock_stays_in_range example_runtime _ _ _ 1 Hst).
Defined.

(** ** Other products are left alone *)














(** ** Sales the store accepts *)







(** ** Set, then read *)

(** X6.  After a set-inventory call answered 200 the product reads the
    new quantity, and the last entry of its ledger goes from the quantity
    stored before to the new one, with [change_qty] their difference. *)
Theorem set_inventory_reads_back (product_id : string) (b : inventory_body)
  (st st' : Store) (resp : response) :
  run (put_inventory product_id b) st = (Returned resp, st') ->
  status resp = 200 ->
  exists id n,
    parseInt_text product_id = Some id /\
    parseInt (ib_new_quantity b) = Some n /\
    stored_quantity id st' = n /\
    last_entry (history_of id st') =
      Some (mk_history id (n - stored_quantity id st)
                       (stored_quantity id st) n).
Proof.
  unfold put_inventory. intros Hrun Hok.
  destruct (parseInt_text product_id) as [id |]; [| answered Hrun].
  destruct (eq_null (ib_new_quantity b)); [answered Hrun |].
  destruct (parseInt (ib_new_quantity b)) as [n |]; [| answered Hrun].
  destruct (n <? 0) eqn:Hneg; [answered Hrun |].
  exists id, n. split; [reflexivity |]. split; [reflexivity |].
  rewrite run_await, select_inventory_number in Hrun.
  destruct (int4_range id) as [e | id'] eqn:Hid; [answered Hrun |].
  apply int4_range_inv in Hid. destruct Hid as [-> Hid].
  pose proof (bind_int4_number id Hid) as Hbind.
  destruct (inventory_of id st) as [| i rows] eqn:Hrows; cbn [map] in Hrun.
  - assert (Hcur : stored_quantity id st = 0)
      by (unfold stored_quantity; rewrite Hrows; reflexivity).
    rewrite run_await in Hrun. unfold select_product_id at 1 in Hrun.
    rewrite (int4_range_ok id Hid) in Hrun.
    destruct (map p_id _) as [| x xs]; [answered Hrun |].
    rewrite run_await in Hrun.
    destruct (insert_inventory_cases id n st) as [(e & E1) | (E1 & _)];
      rewrite E1 in Hrun; [answered Hrun |].
    rewrite run_await in Hrun.
    destruct (insert_history_cases (JNum id) n 0 n
                (with_inventory st (inventory st ++ [mk_inventory id n])))
      as [(e & E2) | (pid & Hpid & E2 & _)]; rewrite E2 in Hrun;
      [answered Hrun |].
    assert (pid = id) as -> by congruence.
    cbn in Hrun. inversion Hrun; subst resp st'. clear Hrun.
    split.
    + rewrite stored_quantity_first_row with (st := st) (pid := id) (q := n);
        [| reflexivity | exact Hrows].
      rewrite Z.eqb_refl. reflexivity.
    + rewrite history_of_app with (st := st) (e := mk_history id n 0 n);
        [| reflexivity].
      cbn [h_product_id]. rewrite Z.eqb_refl, last_entry_app, Hcur.
      rewrite Z.sub_0_r. reflexivity.
  - assert (Hcur : stored_quantity id st = i_quantity i)
      by (unfold stored_quantity; rewrite Hrows; reflexivity).
    rewrite <- Hcur in Hrun.
    rewrite run_await in Hrun.
    destruct (update_inventory_cases n (JNum id) st)
      as [(e & E1) | [(E1 & Hnone) | (pid & Hpid & E1 & _)]];
      rewrite E1 in Hrun; [answered Hrun | congruence |].
    assert (pid = id) as -> by congruence.
    rewrite run_await in Hrun.
    destruct (insert_history_cases (JNum id) (n - stored_quantity id st)
                (stored_quantity id st) n
                (with_inventory st (set_quantity id n (inventory st))))
      as [(e & E2) | (pid & Hpid' & E2 & _)]; rewrite E2 in Hrun;
      [answered Hrun |].
    assert (pid = id) as -> by congruence.
    cbn in Hrun. inversion Hrun; subst resp st'. clear Hrun.
    split.
    + rewrite stored_quantity_set with (st := st) (pid := id) (q := n);
        [| reflexivity].
      rewrite Z.eqb_refl, Hrows. reflexivity.
    + rewrite history_of_app
        with (st := st)
             (e := mk_history id (n - stored_quantity id st)
                              (stored_quantity id st) n);
        [| reflexivity].
      cbn [h_product_id]. rewrite Z.eqb_refl, last_entry_app. reflexivity.
Qed.

Lemma set_inventory_reads_back_witness :
  exists id n,
    parseInt_text "2" = Some id /\
    parseInt (JStr "12") = Some n /\
    stored_quantity id
      (snd (run (put_inventory "2" (set_to (JStr "12"))) shop_two)) = n /\
    last_entry (history_of id
      (snd (run (put_inventory "2" (set_to (JStr "12"))) shop_two))) =
      Some (mk_history id (n - stored_quantity id shop_two)
                       (stored_quantity id shop_two) n).
Proof.
  exact (set_inventory_reads_back "2" (set_to (JStr "12")) shop_two
           (snd (run (put_inventory "2" (set_to (JStr "12"))) shop_two))
           (mk_response 200
              (Some [("product_id", VInt 2); ("previous_quantity", VInt 9);
                     ("new_quantity", VInt 12)]%string))
           eq_refl eq_refl).
Defined.

(** ** Deleting a product *)

Lemma filter_keyed {A : Type} (key : A -> Z) (id pid : Z) (l : list A) :
  filter (fun x => key x =? pid) (filter (fun x => negb (key x =? id)) l) =
  if pid =? id then [] else filter (fun x => key x =? pid) l.
Proof.
  induction l as [| x l IH]; cbn.
  - destruct (pid =? id); reflexivity.
  - destruct (Z.eqb_spec (key x) id) as [Ei | Ei]; cbn.
    + rewrite IH. destruct (Z.eqb_spec pid id) as [Ep | Ep]; [reflexivity |].
      destruct (Z.eqb_spec (key x) pid); [congruence | reflexivity].
    + rewrite IH. destruct (Z.eqb_spec (key x) pid) as [Ek | Ek].
      * destruct (Z.eqb_spec pid id); [congruence | reflexivity].
      * reflexivity.
Qed.

Lemma filter_twice {A : Type} (f : A -> bool) (l : list A) :
  filter f (filter f l) = filter f l.
Proof.
  induction l as [| x l IH]; cbn; [reflexivity |].
  destruct (f x) eqn:E; cbn; [rewrite E, IH |]; auto.
Qed.

Lemma filter_none_negb {A : Type} (f : A -> bool) (l : list A) :
  filter f l = [] -> filter (fun x => negb (f x)) l = l.
Proof.
  induction l as [| x l IH]; cbn; [reflexivity |].
  destruct (f x); cbn; [discriminate |].
  intros E. rewrite (IH E). reflexivity.
Qed.

Lemma existsb_count {A : Type} (f : A -> bool) (l : list A) :
  (0 <? Z.of_nat (List.length (filter f l))) = existsb f l.
Proof.
  induction l as [| x l IH]; cbn [filter existsb]; [reflexivity |].
  destruct (f x); cbn [orb]; [| exact IH].
  cbn [List.length]. apply Z.ltb_lt. lia.
Qed.

(** What [DELETE /api/products/:id] does on a product no sale
    references: the rows of the id are gone from the three tables. *)
Lemma delete_products_run (s : string) (id : Z) (st : Store) :
  parseInt_text s = Some id -> int4_min <= id <= int4_max ->
  existsb (fun x => s_product_id x =? id) (sales st) = false ->
  exists resp st',
    run (delete_products s) st = (Returned resp, st') /\
    categories st' = categories st /\
    products st' = products (without_product id st) /\
    inventory st' = inventory (without_product id st) /\
    inventory_history st' = inventory_history (without_product id st) /\
    sales st' = sales st /\
    products_id_seq st' = products_id_seq st /\
    match find (fun p => p_id p =? id) (products st) with
    | Some p =>
        resp = mk_response 200
                 (Some [("message",
                         VText ("Deleted product: " ++ p_name p))]%string)
    | None => resp = mk_response 404 (error_json "Product not found.")
    end.
Proof.
  intros Hs Hid Hsales. unfold delete_products. rewrite Hs.
  rewrite run_await. unfold count_sales at 1.
  rewrite (int4_range_ok id Hid), existsb_count, Hsales.
  rewrite run_await. unfold delete_history at 1.
  rewrite (int4_range_ok id Hid).
  rewrite run_await. unfold delete_inventory at 1.
  rewrite (int4_range_ok id Hid).
  rewrite run_await. unfold delete_product at 1.
  rewrite (int4_range_ok id Hid).
  cbn [products sales inventory inventory_history categories
       with_history with_inventory].
  rewrite Hsales.
  destruct (filter (fun p => p_id p =? id) (products st)) as [| p gone] eqn:Hp.
  - assert (Hfind : find (fun p => p_id p =? id) (products st) = None).
    { destruct (find _ _) as [p |] eqn:E; [| reflexivity].
      apply find_filter in E. destruct E as [rest E]. congruence. }
    rewrite Hfind. cbn. eexists. eexists. split; [reflexivity |].
    cbn. rewrite (filter_none_negb _ _ Hp). repeat split.
  - assert (Hfind : find (fun p => p_id p =? id) (products st) = Some p).
    { clear -Hp. induction (products st) as [| x l IH]; [discriminate |].
      cbn in *. destruct (p_id x =? id); [congruence | auto]. }
    rewrite Hfind. cbn. eexists. eexists. split; [reflexivity |].
    cbn. rewrite !filter_twice. repeat split.
Qed.

(** X7.  A product that a sale references is not deleted: the request
    is answered 409 and the store is as it was. *)
Theorem delete_product_with_sales (s : string) (id : Z) (st : Store) :
  parseInt_text s = Some id -> int4_min <= id <= int4_max ->
  existsb (fun x => s_product_id x =? id) (sales st) = true ->
  run (delete_products s) st =
  (Returned (mk_response 409
     (error_json "Cannot delete product: sales exist for this product.")), st).
Proof.
  intros Hs Hid Hsales. unfold delete_products. rewrite Hs.
  rewrite run_await. unfold count_sales at 1.
  rewrite (int4_range_ok id Hid), existsb_count, Hsales. reflexivity.
Qed.

Lemma delete_product_with_sales_witness :
  (parseInt_text "1" = Some 1 /\ int4_min <= 1 <= int4_max) /\
  run (delete_products "1") shop_sold =
  (Returned (mk_response 409
     (error_json "Cannot delete product: sales exist for this product.")),
   shop_sold).
Proof.
  assert (Hid : int4_min <= 1 <= int4_max) by (unfold int4_min, int4_max; lia).
  split; [split; [reflexivity | exact Hid] |].
  exact (delete_product_with_sales "1" 1 shop_sold eq_refl Hid eq_refl).
Defined.

(** X8.  Deleting a product that no sale references is answered 200 with
    its name; the product, its inventory rows and its ledger entries are
    gone, and every other product keeps its rows, its entries and the
    quantity it reads. *)
Theorem delete_product_removes_its_rows (s : string) (id : Z) (p : product)
  (st : Store) :
  parseInt_text s = Some id -> int4_min <= id <= int4_max ->
  existsb (fun x => s_product_id x =? id) (sales st) = false ->
  find (fun x => p_id x =? id) (products st) = Some p ->
  exists st',
    run (delete_products s) st =
      (Returned (mk_response 200
         (Some [("message", VText ("Deleted product: " ++ p_name p))]%string)),
       st') /\
    has_product st' id = false /\
    inventory_of id st' = [] /\ history_of id st' = [] /\
    forall pid, pid <> id ->
      has_product st' pid = has_product st pid /\
      stored_quantity pid st' = stored_quantity pid st /\
      history_of pid st' = history_of pid st.
Proof.
  intros Hs Hid Hsales Hfind.
  destruct (delete_products_run s id st Hs Hid Hsales)
    as (resp & st' & Hrun & _ & Ep & Ei & Eh & _ & _ & Hresp).
  rewrite Hfind in Hresp. subst resp. exists st'.
  split; [exact Hrun |].
  unfold has_product, stored_quantity, inventory_of, history_of.
  rewrite Ep, Ei, Eh. cbn [products inventory inventory_history without_product].
  split; [| split; [| split]].
  - apply filter_nil_existsb.
    rewrite (filter_keyed p_id id id), Z.eqb_refl. reflexivity.
  - rewrite (filter_keyed i_product_id id id), Z.eqb_refl. reflexivity.
  - rewrite (filter_keyed h_product_id id id), Z.eqb_refl. reflexivity.
  - intros pid Hne.
    rewrite (filter_keyed i_product_id id pid).
    rewrite (filter_keyed h_product_id id pid).
    destruct (Z.eqb_spec pid id); [contradiction |].
    split; [| split; reflexivity].
    clear -Hne. induction (products st) as [| x l IH]; [reflexivity |].
    cbn. destruct (Z.eqb_spec (p_id x) id) as [E | E]; cbn.
    + rewrite IH. destruct (Z.eqb_spec (p_id x) pid); [congruence | reflexivity].
    + rewrite IH. reflexivity.
Qed.

Lemma delete_product_removes_its_rows_witness :
  (parseInt_text "1" = Some 1 /\ int4_min <= 1 <= int4_max) /\
  exists st',
    run (delete_products "1") shop_two =
      (Returned (mk_response 200
         (Some [("message", VText ("Deleted product: " ++ "Atlas"))]%string)),
       st') /\
    has_product st' 1 = false /\
    inventory_of 1 st' = [] /\ history_of 1 st' = [] /\
    forall pid, pid <> 1 ->
      has_product st' pid = has_product shop_two pid /\
      stored_quantity pid st' = stored_quantity pid shop_two /\
      history_of pid st' = history_of pid shop_two.
Proof.
  assert (Hid : int4_min <= 1 <= int4_max) by (unfold int4_min, int4_max; lia).
  split; [split; [reflexivity | exact Hid] |].
  exact (delete_product_removes_its_rows "1" 1
           (mk_product 1 "Atlas" EmptyString 2000 (Some 1)) shop_two
           eq_refl Hid eq_refl eq_refl).
Defined.

Lemma has_product_without (id pid : Z) (st st' : Store) :
  products st' = products (without_product id st) ->
  pid <> id -> has_product st' pid = has_product st pid.
Proof.
  intros Ep Hne. unfold has_product. rewrite Ep. cbn.
  induction (products st) as [| x l IH]; [reflexivity |].
  cbn. destruct (Z.eqb_spec (p_id x) id) as [E | E]; cbn.
  - rewrite IH. destruct (Z.eqb_spec (p_id x) pid); [congruence | reflexivity].
  - rewrite IH. reflexivity.
Qed.

Lemma ledger_ok_remove (st st' : Store) (id : Z) :
  ledger_ok st ->
  products st' = products (without_product id st) ->
  inventory st' = inventory (without_product id st) ->
  inventory_history st' = inventory_history (without_product id st) ->
  products_id_seq st' = products_id_seq st ->
  ledger_ok st'.
Proof.
  intros (Hinv & Hhist & Hprod & Hchain & Hlast) Ep Ei Eh Es.
  unfold ledger_ok. split; [| split; [| split; [| split]]].
  - intros i Hin. rewrite Ei in Hin. cbn in Hin. apply filter_In in Hin.
    destruct Hin as [Hin Hne]. apply negb_true_iff, Z.eqb_neq in Hne.
    rewrite (has_product_without id _ st st' Ep Hne). apply Hinv, Hin.
  - intros h Hin. rewrite Eh in Hin. cbn in Hin. apply filter_In in Hin.
    destruct Hin as [Hin Hne]. apply negb_true_iff, Z.eqb_neq in Hne.
    rewrite (has_product_without id _ st st' Ep Hne). apply Hhist, Hin.
  - intros p Hin. rewrite Ep in Hin. cbn in Hin. apply filter_In in Hin.
    rewrite Es. apply Hprod, Hin.
  - intros pid. unfold history_of. rewrite Eh. cbn.
    rewrite (filter_keyed h_product_id id pid).
    destruct (pid =? id); [exact I | apply Hchain].
  - intros pid e. unfold history_of, stored_quantity, inventory_of.
    rewrite Eh, Ei. cbn.
    rewrite (filter_keyed h_product_id id pid).
    rewrite (filter_keyed i_product_id id pid).
    destruct (pid =? id); [discriminate | apply Hlast].
Qed.

Lemma delete_products_ledger (s : string) (st : Store) :
  ledger_ok st -> ledger_ok (snd (run (delete_products s) st)).
Proof.
  intros Hok.
  destruct (parseInt_text s) as [id |] eqn:Hs.
  2:{ unfold delete_products. rewrite Hs. exact Hok. }
  destruct (int4_range id) as [e | id'] eqn:Hid.
  { unfold delete_products. rewrite Hs, run_await. unfold count_sales at 1.
    rewrite Hid. exact Hok. }
  apply int4_range_inv in Hid. destruct Hid as [_ Hid].
  destruct (existsb (fun x => s_product_id x =? id) (sales st)) eqn:Hsales.
  - unfold delete_products. rewrite Hs, run_await. unfold count_sales at 1.
    rewrite (int4_range_ok id Hid), existsb_count, Hsales. exact Hok.
  - destruct (delete_products_run s id st Hs Hid Hsales)
      as (resp & st' & -> & _ & Ep & Ei & Eh & _ & Es & _).
    apply (ledger_ok_remove st st' id Hok Ep Ei Eh Es).
Qed.

(** ** The ledger over sequences with deletions *)

Lemma serve_requests_ledger `{Runtime} (rs : list request) (st : Store) :
  ledger_ok st -> ledger_ok (serve_requests rs st).
Proof.
  revert st. induction rs as [| r rs IH]; intros st Hok; [exact Hok |].
  cbn [serve_requests]. apply IH.
  destruct r as [m | id]; cbn [serve].
  - apply (serve_all_ledger [m] st Hok).
  - apply delete_products_ledger, Hok.
Qed.

(** X9.  From a store without products, after any sequence of product
    creations, sales, set-inventory calls and product deletions served
    one after the other, the newest ledger entry of a product ends on the
    quantity the product reads: its [new_qty] is the stored quantity. *)
Theorem ledger_ends_on_stock `{Runtime} (rs : list request) (st : Store)
  (pid : Z) (e : history_row) :
  products st = [] -> inventory st = [] -> inventory_history st = [] ->
  last_entry (history_of pid (serve_requests rs st)) = Some e ->
  new_qty e = stored_quantity pid (serve_requests rs st).
Proof.
  intros Ep Ei Eh.
  destruct (serve_requests_ledger rs st (empty_ledger_ok st Ep Ei Eh))
    as (_ & _ & _ & _ & Hlast).
  apply Hlast.
Qed.

Lemma ledger_ends_on_stock_witness :
  (products shop0 = [] /\ inventory shop0 = [] /\
   inventory_history shop0 = []) /\
  new_qty (mk_history 1 (-5) 3 0) =
  stored_quantity 1
    (@serve_requests example_runtime
       [Mutate (CreateProduct (atlas 3)); Mutate (RecordSale 1000 (sell 1 5))]
       shop0).
Proof.
  split; [repeat split |].
  exact (@ledger_ends_on_stock example_runtime
           [Mutate (CreateProduct (atlas 3));
            Mutate (RecordSale 1000 (sell 1 5))]
           shop0 1 (mk_history 1 (-5) 3 0) eq_refl eq_refl eq_refl eq_refl).
Defined.

(** X10.  With product deletions among the requests the ledger keeps its
    shape: every product's entries still form a chain, an id that is the
    id of no product has no ledger entry and no inventory row, and the
    id of every product lies below the next value of the sequence of
    product ids. *)
Theorem ledger_shape_with_deletions `{Runtime} (rs : list request)
  (st : Store) (pid : Z) :
  products st = [] -> inventory st = [] -> inventory_history st = [] ->
  let st' := serve_requests rs st in
  chained (history_of pid st') /\
  (has_product st' pid = false ->
   history_of pid st' = [] /\ inventory_of pid st' = []) /\
  (has_product st' pid = true -> pid < products_id_seq st').
Proof.
  intros Ep Ei Eh st'.
  destruct (serve_requests_ledger rs st (empty_ledger_ok st Ep Ei Eh))
    as (Hinv & Hhist & Hprod & Hchain & _).
  fold st' in Hinv, Hhist, Hprod, Hchain.
  split; [apply Hchain |]. split.
  - intros Hnone. split.
    + unfold history_of.
      destruct (filter _ (inventory_history st')) as [| h l] eqn:E;
        [reflexivity |].
      assert (Hin : In h (h :: l)) by (left; reflexivity).
      rewrite <- E in Hin. apply filter_In in Hin. destruct Hin as [Hin Hh].
      apply Z.eqb_eq in Hh. specialize (Hhist h Hin). congruence.
    + unfold inventory_of.
      destruct (filter _ (inventory st')) as [| i l] eqn:E; [reflexivity |].
      assert (Hin : In i (i :: l)) by (left; reflexivity).
      rewrite <- E in Hin. apply filter_In in Hin. destruct Hin as [Hin Hi].
      apply Z.eqb_eq in Hi. destruct (Hinv i Hin) as [Hhas _]. congruence.
  - intros Hhas. apply has_product_exists in Hhas.
    destruct Hhas as (p & Hin & <-). apply Hprod, Hin.
Qed.

Lemma ledger_shape_with_deletions_witness :
  (products shop0 = [] /\ inventory shop0 = [] /\
   inventory_history shop0 = []) /\
  let st' := @serve_requests example_runtime
               [Mutate (CreateProduct (atlas 3));
                Mutate (SetInventory "1" (set_to (JNum 8)));
                DeleteProduct "1";
                Mutate (CreateProduct (atlas 6));
                Mutate (RecordSale 1000 (sell 2 1))] shop0 in
  chained (history_of 2 st') /\
  (has_product st' 2 = false ->
   history_of 2 st' = [] /\ inventory_of 2 st' = []) /\
  (has_product st' 2 = true -> 2 < products_id_seq st').
Proof.
  split; [repeat split |].
  exact (@ledger_shape_with_deletions example_runtime _ shop0 2
           eq_refl eq_refl eq_refl).
Defined.

(** ** Create, then read *)

Lemma no_product_with_next_id (st : Store) :
  ledger_ok st ->
  filter (fun p => p_id p =? products_id_seq st) (products st) = [] /\
  history_of (products_id_seq st) st = [] /\
  inventory_of (products_id_seq st) st = [].
Proof.
  intros (Hinv & Hhist & Hprod & _).
  assert (Hp : filter (fun p => p_id p =? products_id_seq st) (products st)
               = []).
  { destruct (filter _ (products st)) as [| p l] eqn:E; [reflexivity |].
    assert (Hin : In p (p :: l)) by (left; reflexivity).
    rewrite <- E in Hin. apply filter_In in Hin. destruct Hin as [Hin Hp].
    apply Z.eqb_eq in Hp. specialize (Hprod p Hin). lia. }
  assert (Hnone : has_product st (products_id_seq st) = false)
    by (apply filter_nil_existsb, Hp).
  split; [exact Hp |]. split.
  - unfold history_of.
    destruct (filter _ (inventory_history st)) as [| h l] eqn:E;
      [reflexivity |].
    assert (Hin : In h (h :: l)) by (left; reflexivity).
    rewrite <- E in Hin. apply filter_In in Hin. destruct Hin as [Hin Hh].
    apply Z.eqb_eq in Hh. specialize (Hhist h Hin). congruence.
  - unfold inventory_of.
    destruct (filter _ (inventory st)) as [| i l] eqn:E; [reflexivity |].
    assert (Hin : In i (i :: l)) by (left; reflexivity).
    rewrite <- E in Hin. apply filter_In in Hin. destruct Hin as [Hin Hi].
    apply Z.eqb_eq in Hi. destruct (Hinv i Hin) as [Hhas _]. congruence.
Qed.

(** X11.  A product that was created (201) reads back: it has a new id,
    the quantity it reads is the initial quantity, its ledger is the one
    entry from 0 to that quantity, and [GET /api/products/:id] on that id
    answers 200 with the body the creation returned. *)
Theorem created_product_reads_back `{Runtime} (b : product_body)
  (st st' : Store) (resp : response) :
  ledger_ok st ->
  run (post_products b) st = (Returned resp, st') -> status resp = 201 ->
  exists id qty,
    parseInt (pb_initial_quantity b) = Some qty /\
    has_product st id = false /\ has_product st' id = true /\
    stored_quantity id st' = qty /\
    history_of id st' = [mk_history id qty 0 qty] /\
    forall s, parseInt_text s = Some id ->
      run (get_product s) st' = (Returned (mk_response 200 (body resp)), st').
Proof.
  intros Hok Hrun H201.
  destruct (post_products_created b st st' resp Hrun H201)
    as (cid & qty & description & Hval & Hdesc).
  destruct (post_products_validated b cid qty description Hval Hdesc)
    as (name & _ & Hpost).
  rewrite Hpost in Hrun. clear Hpost. unfold create_rows in Hrun.
  destruct (no_product_with_next_id st Hok) as (Hfresh & Hnohist & Hnoinv).
  rewrite run_await in Hrun.
  destruct (insert_product_cases (trim name) description
              (parseFloat (pb_price b)) cid st)
    as [(e & st0 & E1 & _) | (cents & E1 & _ & Hseq)];
    cbv zeta in E1; rewrite E1 in Hrun; [answered Hrun |].
  set (id := products_id_seq st) in *.
  set (p := mk_product id (trim name) description cents (Some cid)) in *.
  set (st1 := with_products st (products st ++ [p]) (id + 1)) in *.
  rewrite run_await in Hrun.
  destruct (insert_inventory_cases (p_id p) qty st1)
    as [(e & E2) | (E2 & _ & _)]; rewrite E2 in Hrun; [answered Hrun |].
  set (st2 := with_inventory st1 _) in *.
  rewrite run_await in Hrun.
  destruct (insert_history_cases (JNum (p_id p)) qty 0 qty st2)
    as [(e & E3) | (pid & Hpid & E3 & _)]; rewrite E3 in Hrun;
    [answered Hrun |].
  assert (pid = id) as ->.
  { apply bind_int4_parseInt in Hpid. cbn in Hpid. inversion Hpid.
    reflexivity. }
  set (st3 := with_history st2 _) in *.
  assert (Hprods : filter (fun x => p_id x =? id) (products st3) = [p]).
  { cbn. rewrite filter_app, Hfresh. cbn. rewrite Z.eqb_refl. reflexivity. }
  assert (Hinv3 : inventory_of id st3 = [mk_inventory id qty]).
  { unfold inventory_of in *. cbn. rewrite filter_app, Hnoinv. cbn.
    rewrite Z.eqb_refl. reflexivity. }
  assert (Hrange : int4_min <= id <= int4_max)
    by (unfold int4_min, int4_max in *; lia).
  rewrite run_await in Hrun. unfold select_product_joined at 1 in Hrun.
  cbn [p_id p] in Hrun. rewrite (int4_range_ok id Hrange), Hprods in Hrun.
  cbn [flat_map p_id p app] in Hrun. fold p in Hrun. rewrite Hinv3 in Hrun.
  cbn in Hrun. inversion Hrun; subst resp st'. clear Hrun.
  exists id, qty.
  destruct Hval as (_ & _ & _ & _ & _ & _ & _ & _ & Hq & _).
  split; [exact Hq |].
  split; [apply filter_nil_existsb, Hfresh |].
  split; [unfold has_product; cbn; rewrite existsb_app; cbn;
          rewrite Z.eqb_refl, orb_true_r; reflexivity |].
  split; [unfold stored_quantity; fold st3; rewrite Hinv3; reflexivity |].
  split.
  - unfold history_of in *. cbn. rewrite filter_app, Hnohist. cbn.
    rewrite Z.eqb_refl. reflexivity.
  - intros s Hs. unfold get_product. rewrite Hs, run_await.
    unfold select_product at 1. fold st3.
    rewrite (int4_range_ok id Hrange), Hprods.
    cbn [flat_map p_id p app]. fold p. rewrite Hinv3. reflexivity.
Qed.

Lemma created_product_reads_back_witness :
  ledger_ok shop0 /\
  exists id qty,
    parseInt (JNum 50) = Some qty /\
    has_product shop0 id = false /\ has_product (shop_with 50) id = true /\
    stored_quantity id (shop_with 50) = qty /\
    history_of id (shop_with 50) = [mk_history id qty 0 qty] /\
    forall s, parseInt_text s = Some id ->
      run (get_product s) (shop_with 50) =
      (Returned
         (mk_response 200
            (Some (product_json (shop_with 50)
                     (mk_product 1 "Atlas" EmptyString 2000 (Some 1))
                     (VInt 50)))),
       shop_with 50).
Proof.
  assert (Hok : ledger_ok shop0)
    by (apply empty_ledger_ok; reflexivity).
  split; [exact Hok |].
  exact (@created_product_reads_back example_runtime (atlas 50) shop0
           (shop_with 50)
           (mk_response 201
              (Some (product_json (shop_with 50)
                       (mk_product 1 "Atlas" EmptyString 2000 (Some 1))
                       (VInt 50))))
           Hok eq_refl eq_refl).
Defined.

(** ** Listings *)





Lemma insert_by_quantity_perm (r : product * Z) (l : list (product * Z)) :
  Permutation (r :: l) (insert_by_quantity r l).
Proof.
  induction l as [| x l IH]; cbn; [apply Permutation_refl |].
  destruct (snd r <=? snd x); [apply Permutation_refl |].
  apply perm_trans with (x :: r :: l); [apply perm_swap |].
  apply perm_skip, IH.
Qed.

Lemma order_by_quantity_perm (l : list (product * Z)) :
  Permutation l (order_by_quantity l).
Proof.
  induction l as [| r l IH]; cbn; [apply perm_nil |].
  apply perm_trans with (r :: order_by_quantity l);
    [apply perm_skip, IH | apply insert_by_quantity_perm].
Qed.

Lemma insert_by_quantity_sorted (r : product * Z) (l : list (product * Z)) :
  Sorted by_quantity l -> Sorted by_quantity (insert_by_quantity r l).
Proof.
  induction l as [| x l IH]; intros Hl; cbn.
  - repeat constructor.
  - destruct (Z.leb_spec (snd r) (snd x)) as [Hle | Hgt].
    + constructor; [exact Hl |]. constructor. exact Hle.
    + inversion Hl as [| ? ? Hl' Hhd]; subst.
      constructor; [apply IH, Hl' |].
      destruct l as [| y l]; cbn.
      * constructor. unfold by_quantity. lia.
      * destruct (snd r <=? snd y).
        -- constructor. unfold by_quantity. lia.
        -- constructor. inversion Hhd; subst. assumption.
Qed.

Lemma order_by_quantity_sorted (l : list (product * Z)) :
  Sorted by_quantity (order_by_quantity l).
Proof.
  induction l as [| r l IH]; cbn; [constructor |].
  apply insert_by_quantity_sorted, IH.
Qed.

(** X13.  The low-stock listing with a threshold that is a non-negative
    integer of the INTEGER type answers 200 and leaves the store; its
    rows are exactly the product rows whose quantity (0 for a product
    without inventory row) is at most the threshold, each once, in
    ascending order of quantity. *)
Theorem low_stock_listing (v : jsval) (thr : Z) (st : Store) :
  eq_null v = false -> parseInt v = Some thr -> 0 <= thr <= int4_max ->
  exists rows,
    run (get_inventory v) st =
      (Returned (mk_answer 200 (Rows (map (stock_json st) rows))), st) /\
    Sorted by_quantity rows /\
    Permutation rows (filter (fun r => snd r <=? thr) (stock_rows st)) /\
    (forall r, In r rows <-> In r (stock_rows st) /\ snd r <= thr).
Proof.
  intros Hnull Hparse Hthr.
  exists (low_stock (Some thr) st).
  assert (Hperm : Permutation (low_stock (Some thr) st)
                    (filter (fun r => snd r <=? thr) (stock_rows st))).
  { unfold low_stock. apply Permutation_sym, order_by_quantity_perm. }
  split; [| split; [| split]].
  - unfold get_inventory. rewrite Hnull, Hparse. cbn [negb].
    replace (thr <? 0) with false by (symmetry; apply Z.ltb_ge; lia).
    rewrite run_await. unfold select_stock at 1.
    rewrite int4_range_ok by (unfold int4_min, int4_max in *; lia).
    reflexivity.
  - unfold low_stock. apply order_by_quantity_sorted.
  - exact Hperm.
  - intros r. split.
    + intros Hin. apply (Permutation_in _ Hperm) in Hin.
      apply filter_In in Hin. destruct Hin as [Hin Hle].
      apply Z.leb_le in Hle. auto.
    + intros [Hin Hle]. apply (Permutation_in _ (Permutation_sym Hperm)).
      apply filter_In. split; [exact Hin | apply Z.leb_le, Hle].
Qed.

Lemma low_stock_listing_witness :
  (eq_null (JStr "5") = false /\ parseInt (JStr "5") = Some 5 /\
   0 <= 5 <= int4_max) /\
  exists rows,
    run (get_inventory (JStr "5")) shop_two =
      (Returned (mk_answer 200 (Rows (map (stock_json shop_two) rows))),
       shop_two) /\
    Sorted by_quantity rows /\
    Permutation rows (filter (fun r => snd r <=? 5) (stock_rows shop_two)) /\
    (forall r, In r rows <-> In r (stock_rows shop_two) /\ snd r <= 5).
Proof.
  assert (Hthr : 0 <= 5 <= int4_max) by (unfold int4_max; lia).
  split; [repeat split; try reflexivity; apply Hthr |].
  exact (low_stock_listing (JStr "5") 5 shop_two eq_refl eq_refl Hthr).
Defined.

(** X14.  [GET /api/products/:id] reads what the ledger routes write: for
    a product that exists it answers 200 with the product's row, whose
    [quantity] is the quantity of its first inventory row, or 0 when it
    has none; the store is left as it was. *)
Theorem get_product_reads_stock (s : string) (id : Z) (p : product)
  (st : Store) :
  parseInt_text s = Some id -> int4_min <= id <= int4_max ->
  find (fun x => p_id x =? id) (products st) = Some p ->
  run (get_product s) st =
  (Returned (mk_response 200
     (Some (product_json st p (VInt (stored_quantity id st))))), st).
Proof.
  intros Hs Hid Hfind.
  assert (Hp : p_id p = id).
  { apply find_some in Hfind. destruct Hfind as [_ E]. apply Z.eqb_eq, E. }
  destruct (find_filter _ _ _ Hfind) as [rest Hrows].
  unfold get_product. rewrite Hs, run_await. unfold select_product at 1.
  rewrite (int4_range_ok id Hid), Hrows. cbn [flat_map].
  rewrite Hp. unfold stored_quantity.
  destruct (inventory_of id st) as [| i rows]; reflexivity.
Qed.

Lemma get_product_reads_stock_witness :
  (parseInt_text "2" = Some 2 /\ int4_min <= 2 <= int4_max) /\
  run (get_product "2") shop_two =
  (Returned (mk_response 200
     (Some (product_json shop_two
              (mk_product 2 "Globe" EmptyString 3500 (Some 1))
              (VInt (stored_quantity 2 shop_two))))), shop_two).
Proof.
  assert (Hid : int4_min <= 2 <= int4_max) by (unfold int4_min, int4_max; lia).
  split; [split; [reflexivity | exact Hid] |].
  exact (get_product_reads_stock "2" 2 _ shop_two eq_refl Hid eq_refl).
Defined.

(** ** Deleting a category *)

Lemma set_null_none (id : Z) (l : list product) :
  filter (fun p => match p_category_id p with
                   | Some c => c =? id
                   | None => false
                   end) l = [] ->
  map (fun p => match p_category_id p with
                | Some c =>
                    if c =? id
                    then mk_product (p_id p) (p_name p) (p_description p)
                           (p_price p) None
                    else p
                | None => p
                end) l = l.
Proof.
  induction l as [| p l IH]; cbn; [reflexivity |].
  destruct (p_category_id p) as [c |].
  - destruct (c =? id); [discriminate |].
    intros E. rewrite (IH E). reflexivity.
  - intros E. rewrite (IH E). reflexivity.
Qed.

Lemma filter_nil_forall {A : Type} (f : A -> bool) (l : list A) (a : A) :
  filter f l = [] -> In a l -> f a = false.
Proof.
  intros E Ha. destruct (f a) eqn:Fa; [| reflexivity].
  assert (Hin : In a (filter f l)) by (apply filter_In; split; assumption).
  rewrite E in Hin. destruct Hin.
Qed.

Lemma existsb_other_category (id c : Z) (l : list category) :
  c <> id ->
  existsb (fun x => c_id x =? c) (filter (fun x => negb (c_id x =? id)) l) =
  existsb (fun x => c_id x =? c) l.
Proof.
  intros Hc. induction l as [| x l IH]; cbn; [reflexivity |].
  destruct (c_id x =? id) eqn:E; cbn.
  - apply Z.eqb_eq in E.
    assert (F : (c_id x =? c) = false) by (apply Z.eqb_neq; lia).
    rewrite F. exact IH.
  - rewrite IH. reflexivity.
Qed.

(** X15.  [DELETE /api/categories/:id] never touches the products and
    never removes a category a product refers to: whatever it answers,
    the products table is as before and each product's category is there
    or not as before; on 200 the category existed and is gone, on any
    other answer the store is unchanged. *)
Theorem delete_category_keeps_products (s : string) (id : Z) (st : Store) :
  parseInt_text s = Some id -> int4_min <= id <= int4_max ->
  exists r st',
    run (delete_categories s) st = (Returned r, st') /\
    products st' = products st /\
    (forall p c, In p (products st) -> p_category_id p = Some c ->
                 has_category st' c = has_category st c) /\
    (status r = 200 ->
     has_category st id = true /\ has_category st' id = false) /\
    (status r <> 200 -> st' = st).
Proof.
  intros Hs Hid.
  unfold delete_categories. rewrite Hs, run_await.
  unfold count_products at 1. rewrite (int4_range_ok id Hid).
  destruct (filter (fun p => match p_category_id p with
                             | Some c => c =? id
                             | None => false
                             end) (products st)) as [| p0 ps] eqn:Hrefs.
  - cbn [List.length Z.of_nat Z.ltb Z.compare].
    rewrite run_await. unfold delete_category at 1.
    rewrite (int4_range_ok id Hid).
    destruct (filter (fun c => c_id c =? id) (categories st))
      as [| c0 cs] eqn:Hcat.
    + eexists; eexists; split; [reflexivity |].
      cbn [status]. repeat split; try reflexivity; try discriminate.
    + cbn [map]. eexists; eexists; split; [reflexivity |].
      rewrite (set_null_none id (products st) Hrefs).
      cbn [status]. split; [reflexivity |]. split; [| split].
      * intros p c Hp Hc. unfold has_category, with_categories. cbn.
        apply existsb_other_category. intros ->.
        pose proof (filter_nil_forall _ _ p Hrefs Hp) as F. cbn in F.
        rewrite Hc, Z.eqb_refl in F. discriminate.
      * intros _. split.
        -- unfold has_category. apply existsb_exists. exists c0.
           assert (Hin : In c0 (filter (fun c => c_id c =? id) (categories st)))
             by (rewrite Hcat; left; reflexivity).
           apply filter_In in Hin. exact Hin.
        -- unfold has_category, with_categories. cbn.
           destruct (existsb (fun c => c_id c =? id)
                       (filter (fun c => negb (c_id c =? id)) (categories st)))
             eqn:E; [| reflexivity].
           apply existsb_exists in E. destruct E as [x [Hx Ex]].
           apply filter_In in Hx. destruct Hx as [_ Hx].
           rewrite Ex in Hx. discriminate.
      * intros Hne. exfalso. apply Hne. reflexivity.
  - assert (Hpos : (0 <? Z.of_nat (List.length (p0 :: ps))) = true).
    { apply Z.ltb_lt. cbn [List.length]. lia. }
    rewrite Hpos.
    eexists; eexists; split; [reflexivity |].
    cbn [status]. repeat split; try reflexivity; try discriminate.
Qed.

Lemma delete_category_keeps_products_witness :
  (parseInt_text "1" = Some 1 /\ int4_min <= 1 <= int4_max) /\
  exists r st',
    run (delete_categories "1") shop0 = (Returned r, st') /\
    products st' = products shop0 /\
    (forall p c, In p (products shop0) -> p_category_id p = Some c ->
                 has_category st' c = has_category shop0 c) /\
    (status r = 200 ->
     has_category shop0 1 = true /\ has_category st' 1 = false) /\
    (status r <> 200 -> st' = shop0).
Proof.
  assert (Hid : int4_min <= 1 <= int4_max) by (unfold int4_min, int4_max; lia).
  split; [split; [reflexivity | exact Hid] |].
  exact (delete_category_keeps_products "1" 1 shop0 eq_refl Hid).
Defined.

(** ** Refused requests *)

Lemma nr_bind {A : Type} (p : prog A) (f : A -> prog response) :
  (forall a, never_refuses (f a)) -> never_refuses (bind p f).
Proof.
  intros Hf. induction p as [a | e | T q k IH]; cbn.
  - apply Hf.
  - constructor.
  - constructor. exact IH.
Qed.

Lemma nr_try_catch (p : prog response) (h : exn -> prog response) :
  never_refuses p -> (forall e, never_refuses (h e)) ->
  never_refuses (try_catch p h).
Proof.
  intros Hp Hh. induction Hp as [r Hr | e | T q k Hk IH]; cbn.
  - constructor. exact Hr.
  - apply Hh.
  - constructor. exact IH.
Qed.

Lemma nr_refuses_before_writing (p : prog response) :
  never_refuses p -> refuses_before_writing p.
Proof.
  intros Hp. destruct Hp as [r Hr | e | T q k Hk].
  - constructor.
  - constructor.
  - apply rb_Write. exact Hk.
Qed.

Lemma rb_try_catch (p : prog response) (h : exn -> prog response) :
  refuses_before_writing p -> (forall e, never_refuses (h e)) ->
  refuses_before_writing (try_catch p h).
Proof.
  intros Hp Hh. induction Hp as [r | e | T q k Hq Hk IH | T q k Hk]; cbn.
  - constructor.
  - apply nr_refuses_before_writing, Hh.
  - apply rb_Read; [exact Hq | exact IH].
  - apply rb_Write. intros x. apply nr_try_catch; [apply Hk | exact Hh].
Qed.

Lemma rb_bind_read {T : Type} (q : query T) (f : T -> prog response) :
  (forall st, snd (q st) = st) ->
  (forall a, refuses_before_writing (f a)) ->
  refuses_before_writing (bind (await q) f).
Proof.
  intros Hq Hf. cbn. apply rb_Read; [exact Hq |].
  intros [e | r]; cbn; [constructor | apply Hf].
Qed.

Lemma rb_bind_write {T : Type} (q : query T) (f : T -> prog response) :
  (forall a, never_refuses (f a)) ->
  refuses_before_writing (bind (await q) f).
Proof.
  intros Hf. cbn. apply rb_Write.
  intros [e | r]; cbn; [constructor | apply Hf].
Qed.

Lemma nr_run (p : prog response) (st : Store) (r : response) :
  never_refuses p -> fst (run p st) = Returned r -> ~ 400 <= status r < 500.
Proof.
  intros Hp. revert st.
  induction Hp as [r0 Hr | e | T q k Hk IH]; intros st; cbn.
  - intros E. injection E as <-. exact Hr.
  - discriminate.
  - destruct (q st) as [x st1]. apply IH.
Qed.

Lemma nr_run_failing (n : nat) (p : prog response) (st : Store)
  (r : response) :
  never_refuses p -> fst (run_failing n p st) = Returned r ->
  ~ 400 <= status r < 500.
Proof.
  intros Hp. revert n st.
  induction Hp as [r0 Hr | e | T q k Hk IH]; intros n st;
    destruct n as [| n]; cbn;
    try (intros E; injection E as <-; exact Hr); try discriminate.
  - apply (nr_run _ _ _ (Hk _)).
  - destruct (q st) as [x st1]. apply IH.
Qed.

Lemma rb_run (p : prog response) (st : Store) (r : response) :
  refuses_before_writing p ->
  fst (run p st) = Returned r -> 400 <= status r < 500 ->
  snd (run p st) = st.
Proof.
  intros Hp. revert st.
  induction Hp as [r0 | e | T q k Hq Hk IH | T q k Hk]; intros st; cbn.
  - reflexivity.
  - reflexivity.
  - specialize (Hq st). destruct (q st) as [x st1]. cbn in Hq. subst st1.
    apply IH.
  - destruct (q st) as [x st1]. intros E Hr.
    destruct (nr_run _ _ _ (Hk x) E Hr).
Qed.

Lemma rb_run_failing (n : nat) (p : prog response) (st : Store)
  (r : response) :
  refuses_before_writing p ->
  fst (run_failing n p st) = Returned r -> 400 <= status r < 500 ->
  snd (run_failing n p st) = st.
Proof.
  intros Hp. revert n st.
  induction Hp as [r0 | e | T q k Hq Hk IH | T q k Hk]; intros n st;
    destruct n as [| n]; cbn; try reflexivity.
  - apply rb_run, Hk.
  - specialize (Hq st). destruct (q st) as [x st1]. cbn in Hq. subst st1.
    apply IH.
  - intros E Hr. destruct (nr_run _ _ _ (Hk _) E Hr).
  - destruct (q st) as [x st1]. intros E Hr.
    destruct (nr_run_failing _ _ _ _ (Hk x) E Hr).
Qed.

(** Splits a handler at its awaits and branches, reads apart from
    writes. *)
Ltac refusing :=
  unfold reply, next in *;
  repeat match goal with
         | |- refuses_before_writing (Ret _) => constructor
         | |- refuses_before_writing (Raise _) => constructor
         | |- refuses_before_writing (try_catch _ _) =>
             apply rb_try_catch; [| intros; apply nr_Ret; cbn; lia]
         | |- refuses_before_writing (bind (await (select_price _)) _) =>
             apply rb_bind_read; [intros; apply select_price_store | intros]
         | |- refuses_before_writing (bind (await (select_inventory _)) _) =>
             apply rb_bind_read; [intros; apply select_inventory_store | intros]
         | |- refuses_before_writing (bind (await (select_product_id _)) _) =>
             apply rb_bind_read; [intros; apply select_product_id_store | intros]
         | |- refuses_before_writing (bind (await _) _) =>
             apply rb_bind_write; intros
         | |- refuses_before_writing (bind (trim_value ?v) _) =>
             destruct v; cbn [trim_value bind]
         | |- refuses_before_writing (bind (Ret _) _) => cbn [bind]
         | |- refuses_before_writing (bind (if ?c then _ else _) _) =>
             destruct c
         | |- refuses_before_writing (match ?x with _ => _ end) => destruct x
         | |- never_refuses (Ret _) => apply nr_Ret; cbn [status]; lia
         | |- never_refuses (Raise _) => constructor
         | |- never_refuses (bind _ _) => apply nr_bind; intros
         | |- never_refuses (match ?x with _ => _ end) => destruct x
         end.

Lemma handler_refuses_before_writing `{Runtime} (m : mutation) :
  refuses_before_writing (handler m).
Proof.
  destruct m as [b | now b | product_id b]; cbn [handler].
  - unfold post_products. cbv zeta. refusing.
  - unfold post_sales. cbv zeta. refusing.
  - unfold put_inventory. cbv zeta. refusing.
Qed.

(** X16.  A request one of the three writing routes refuses with a status
    4xx has written nothing, also when the connection fails at any of
    its statements: every answer sent after the first write is 200, 201
    or the 500 of the global handler. *)
Theorem refused_requests_write_nothing `{Runtime} (m : mutation)
  (r : response) (st : Store) :
  400 <= status r < 500 ->
  (fst (run (handler m) st) = Returned r -> snd (run (handler m) st) = st) /\
  (forall n, fst (run_failing n (handler m) st) = Returned r ->
             snd (run_failing n (handler m) st) = st).
Proof.
  intros Hr. split.
  - intros E. exact (rb_run _ _ _ (handler_refuses_before_writing m) E Hr).
  - intros n E.
    exact (rb_run_failing n _ _ _ (handler_refuses_before_writing m) E Hr).
Qed.

Lemma refused_requests_write_nothing_witness :
  400 <= status (mk_response 404 (error_json "Product not found.")) < 500 /\
  fst (run (@handler example_runtime (RecordSale 1000 (sell 7 1))) shop_two) =
    Returned (mk_response 404 (error_json "Product not found.")) /\
  snd (run (@handler example_runtime (RecordSale 1000 (sell 7 1))) shop_two) =
    shop_two.
Proof.
  assert (Hr : 400 <= status (mk_response 404
                                (error_json "Product not found.")) < 500)
    by (cbn; lia).
  split; [exact Hr |]. split; [reflexivity |].
  exact (proj1 (@refused_requests_write_nothing example_runtime
                  (RecordSale 1000 (sell 7 1)) _ shop_two Hr) eq_refl).
Defined.
